(** * Project generator of the HTTP storage scaffolding tool

    A shallow embedding of
    [gamemeanmachine/http_storage/generators/project.py] together with
    the small part of the operating system it talks to: a tree of
    directories and regular files, [os.makedirs], [os.listdir],
    [open(..., "w")] followed by [write], and [shutil.copy].

    Python statements that touch the filesystem become computations in
    a state-and-exception monad [io]: a computation receives the
    filesystem, gives back the filesystem it leaves behind, and either
    a value or the exception it raised.  The filesystem that is left
    behind by a raising computation is kept, because nothing in the
    source undoes earlier writes. *)

From Stdlib Require Import ZArith DecimalString Ascii String List.
From Stdlib Require DecimalZ DecimalPos.
From stdpp Require Import gmap strings list fin_maps.

Open Scope string_scope.
Open Scope list_scope.
Open Scope stdpp_scope.

(** ** Operating system model *)

Module OS.

(** A path is the list of its components below the root directory, so
    ["/tmp/proj1"] is [["tmp"; "proj1"]] and [os.path.join p "server"]
    is [p ++ ["server"]]. *)
Abbreviation path := (list string).

Inductive node : Type :=
| File (content : string)
| Dir.

Abbreviation fs := (gmap (list string) node).

(** The exceptions of the [OSError] family met here.  [OSError_msg] is a
    bare [OSError(msg)] as raised by the generator itself. *)
Inductive OSError : Type :=
| FileExistsError
| FileNotFoundError
| NotADirectoryError
| IsADirectoryError
| SameFileError
| PermissionError
| OSError_msg (msg : string).

Inductive result (A : Type) : Type :=
| Ok (a : A)
| Raise (e : OSError).
Arguments Ok {A} a.
Arguments Raise {A} e.

Definition io (A : Type) : Type := fs → fs * result A.

Definition ret {A} (a : A) : io A := λ σ, (σ, Ok a).

Definition raise {A} (e : OSError) : io A := λ σ, (σ, Raise e).

Definition bind {A B} (k : A → io B) (m : io A) : io B :=
  λ σ, match m σ with
       | (σ', Ok a) => k a σ'
       | (σ', Raise e) => (σ', Raise e)
       end.

(** With these instances [x ← m; k] and [m;; k] sequence statements. *)
#[export] Instance io_ret : MRet io := @ret.
#[export] Instance io_bind : MBind io := @bind.

(** [try: m except OSError as e: h e] *)
Definition try_except {A} (m : io A) (h : OSError → io A) : io A :=
  λ σ, match m σ with
       | (σ', Raise e) => h e σ'
       | r => r
       end.

(** Steps run one after the other, as a block of statements does. *)
Fixpoint run_steps (steps : list (io unit)) : io unit :=
  match steps with
  | [] => ret tt
  | s :: rest => s;; run_steps rest
  end.

Definition parent (p : path) : option path :=
  match rev p with
  | [] => None
  | _ :: r => Some (rev r)
  end.

Definition basename (p : path) : string :=
  match rev p with
  | [] => ""
  | n :: _ => n
  end.

Definition exists_ (σ : fs) (p : path) : bool :=
  match σ !! p with Some _ => true | None => false end.

Definition isdir (σ : fs) (p : path) : bool :=
  match σ !! p with Some Dir => true | _ => false end.

Definition isfile (σ : fs) (p : path) : bool :=
  match σ !! p with Some (File _) => true | _ => false end.

(** [child_of p q] is [Some n] exactly when [q = p ++ [n]]. *)
Fixpoint child_of (p q : path) : option string :=
  match p, q with
  | [], [n] => Some n
  | a :: p', b :: q' => if decide (a = b) then child_of p' q' else None
  | _, _ => None
  end.

Definition children (σ : fs) (p : path) : list string :=
  omap (λ kv, child_of p kv.1) (map_to_list σ).

(** Every entry other than the root sits in a directory. *)
Definition fs_wf (σ : fs) : Prop :=
  σ !! [] = Some Dir ∧
  ∀ (p : path) (n : string), is_Some (σ !! (p ++ [n])) → σ !! p = Some Dir.

Definition well_formed (σ : fs) : bool :=
  isdir σ [] &&
  forallb (λ kv, match parent kv.1 with
                 | None => true
                 | Some q => isdir σ q
                 end) (map_to_list σ).

(** All the prefixes of a path, the root and the path itself included. *)
Fixpoint prefixes (p : path) : list path :=
  [] :: match p with
        | [] => []
        | n :: p' => cons n <$> prefixes p'
        end.

(** No regular file stands in the way of creating directory [p]. *)
Definition creatable (σ : fs) (p : path) : bool :=
  forallb (λ q, negb (isfile σ q)) (prefixes p).

Section Primitives.

(** What the environment refuses: [refused p = Some e] when creating or
    opening for writing the entry [p] fails with [e] (permissions, quota,
    a full disk), whatever the tree looks like. *)
Variable refused : path → option OSError.

(** [os.mkdir(p)] *)
Definition mkdir (p : path) : io unit :=
  λ σ, match σ !! p with
       | Some _ => (σ, Raise FileExistsError)
       | None =>
         match parent p with
         | None => (σ, Raise FileExistsError)
         | Some q =>
           match σ !! q with
           | None => (σ, Raise FileNotFoundError)
           | Some (File _) => (σ, Raise NotADirectoryError)
           | Some Dir =>
             match refused p with
             | Some e => (σ, Raise e)
             | None => (<[p := Dir]> σ, Ok tt)
             end
           end
         end
       end.

(** [os.path.exists(p)] and [os.path.isdir(p)] *)
Definition path_exists (p : path) : io bool := λ σ, (σ, Ok (exists_ σ p)).

Definition path_isdir (p : path) : io bool := λ σ, (σ, Ok (isdir σ p)).

(** [os.makedirs(name, exist_ok=exist_ok)], by recursion on the reversed
    path as the library recurses on [os.path.split]: create the head
    when it is missing (a [FileExistsError] there is passed over), then
    [mkdir] the leaf, forgiving its failure when [exist_ok] holds and the
    leaf is a directory. *)
Fixpoint makedirs_rev (rname : path) (exist_ok : bool) : io unit :=
  match rname return io unit with
  | [] => ret tt
  | _ :: rhead =>
    head_exists ← path_exists (rev rhead);
    if head_exists : bool then ret tt
    else try_except (makedirs_rev rhead exist_ok)
           (λ e, match e with FileExistsError => ret tt | _ => raise e end)
  end;;
  try_except (mkdir (rev rname))
    (λ e, leaf_is_dir ← path_isdir (rev rname);
          if negb exist_ok || negb leaf_is_dir then raise e else ret tt).

Definition makedirs (name : path) (exist_ok : bool) : io unit :=
  makedirs_rev (rev name) exist_ok.

(** [os.listdir(p)] *)
Definition listdir (p : path) : io (list string) :=
  λ σ, match σ !! p with
       | None => (σ, Raise FileNotFoundError)
       | Some (File _) => (σ, Raise NotADirectoryError)
       | Some Dir => (σ, Ok (children σ p))
       end.

(** [with open(p, "w") as f: f.write(data)] *)
Definition write_file (p : path) (data : string) : io unit :=
  λ σ, match σ !! p with
       | Some Dir => (σ, Raise IsADirectoryError)
       | _ =>
         match parent p with
         | None => (σ, Raise IsADirectoryError)
         | Some q =>
           match σ !! q with
           | None => (σ, Raise FileNotFoundError)
           | Some (File _) => (σ, Raise NotADirectoryError)
           | Some Dir =>
             match refused p with
             | Some e => (σ, Raise e)
             | None => (<[p := File data]> σ, Ok tt)
             end
           end
         end
       end.

(** [shutil.copy(src, dst)]: into [dst], or into [dst/basename(src)] when
    [dst] is a directory.  [copyfile] refuses to copy a file onto itself,
    then opens the source for reading before it opens the destination
    for writing.  [src = None] is a path string that names nothing.
    File modes, which [copymode] carries over, are not part of the
    model. *)
Definition shutil_copy (src : option path) (dst : path) : io unit :=
  λ σ, match src with
       | None => (σ, Raise FileNotFoundError)
       | Some s =>
         let dst' := if isdir σ dst then dst ++ [basename s] else dst in
         if bool_decide (s = dst') && exists_ σ s
         then (σ, Raise SameFileError)
         else
           match σ !! s with
           | None => (σ, Raise FileNotFoundError)
           | Some Dir => (σ, Raise IsADirectoryError)
           | Some (File data) => write_file dst' data σ
           end
       end.

End Primitives.

End OS.

(** ** The generator: [generators/project.py] *)

Module Project.
Import OS.

(** [str(n)] for a Python [int], which is what an f-string field of an
    integer expands to. *)
Definition str (n : Z) : string := NilZero.string_of_int (Z.to_int n).

(** The f-string of [_make_docker_compose_file]. *)
Definition docker_compose_contents (mongodb_port http_port : Z) : string :=
"version: '3.7'
services:
  mongodb:
    image: mongo:6.0
    env_file: .env
    ports:
      - " +:+ str mongodb_port +:+ ":27017
    expose:
      - " +:+ str mongodb_port +:+ "
    volumes:
      - .tmp/mongo:/data/db
  http:
    build:
      context: ./server
    env_file: .env
    ports:
      - " +:+ str http_port +:+ ":8080
    expose:
      - " +:+ str http_port +:+ "
".

(** The f-string of [_make_env_file]. *)
Definition env_contents (mongodb_port : Z)
    (mongodb_user mongodb_pass server_api_key : string) : string :=
"MONGO_INITDB_ROOT_USERNAME=" +:+ mongodb_user +:+ "
MONGO_INITDB_ROOT_PASSWORD=" +:+ mongodb_pass +:+ "
DB_HOST=mongodb
DB_PORT=" +:+ str mongodb_port +:+ "
DB_USER=" +:+ mongodb_user +:+ "
DB_PASS=" +:+ mongodb_pass +:+ "
SERVER_API_KEY=" +:+ server_api_key +:+ "
WAITRESS_PORT=8080
MODULE_NAME=app
VARIABLE_NAME=app
".

(** The f-string of [_make_requirements_file]. *)
Definition requirements_contents : string :=
"# Place any requirements you need in this file.
alephvault-http-mongodb-storage==0.0.4
".

(** The f-string of [_make_dockerfile]. *)
Definition dockerfile_contents : string :=
"FROM tecktron/python-waitress:python-3.7

COPY ./ /app
RUN pip install -r /app/requirements.txt
# The /app/app.py file will be the entrypoint for waitress serve.
".

(** Default values of the keyword parameters. *)
Definition default_mongodb_port : Z := 27017.
Definition default_http_port : Z := 8080.
Definition default_mongodb_user : string := "admin".
Definition default_mongodb_pass : string := "p455w0rd".
Definition default_server_api_key : string := "sample-abcdef".

Section Generator.

Variable refused : path → option OSError.

(** How the operating system reads a path string given by the caller
    (absolute, or relative to the working directory); [None] for a string
    that can name nothing. *)
Variable resolve : string → option path.

(** [os.path.dirname(__file__)]: the directory [project.py] is installed
    in. *)
Variable pkg_dir : path.

(** A parameter with a default is an [option]: [None] when the caller
    leaves it out. *)
Definition _make_docker_compose_file (project_path : path)
    (mongodb_port http_port : option Z) : io unit :=
  let mongodb_port := default default_mongodb_port mongodb_port in
  let http_port := default default_http_port http_port in
  let contents := docker_compose_contents mongodb_port http_port in
  write_file refused (project_path ++ ["docker-compose.yml"]) contents.

Definition _make_env_file (project_path : path) (mongodb_port : option Z)
    (mongodb_user mongodb_pass server_api_key : option string) : io unit :=
  let mongodb_port := default default_mongodb_port mongodb_port in
  let mongodb_user := default default_mongodb_user mongodb_user in
  let mongodb_pass := default default_mongodb_pass mongodb_pass in
  let server_api_key := default default_server_api_key server_api_key in
  let contents :=
    env_contents mongodb_port mongodb_user mongodb_pass server_api_key in
  write_file refused (project_path ++ [".env"]) contents.

Definition _make_requirements_file (project_path : path) : io unit :=
  let contents := requirements_contents in
  write_file refused (project_path ++ ["server"; "requirements.txt"]) contents.

Definition _make_dockerfile (project_path : path) : io unit :=
  let contents := dockerfile_contents in
  write_file refused (project_path ++ ["server"; "Dockerfile"]) contents.

Definition _make_init_file (project_path : path) : io unit :=
  write_file refused (project_path ++ ["server"; "__init__.py"]) "".

(** The source file a template selector stands for. *)
Definition template_source (template : string) : option path :=
  if decide (template = "default:simple") then
    Some (pkg_dir ++ ["simple-application-template.py"])
  else if decide (template = "default:multiple") then
    Some (pkg_dir ++ ["multichar-application-template.py"])
  else resolve template.

Definition _make_app_file (project_path : path) (template : string) : io unit :=
  let template := template_source template in
  let target := project_path ++ ["server"; "app.py"] in
  shutil_copy refused template target.

Definition generate_project (full_path : path) (template : string)
    (mongodb_port http_port : option Z)
    (mongodb_user mongodb_pass server_api_key : option string) : io unit :=
  let mongodb_port := default default_mongodb_port mongodb_port in
  let http_port := default default_http_port http_port in
  let mongodb_user := default default_mongodb_user mongodb_user in
  let mongodb_pass := default default_mongodb_pass mongodb_pass in
  let server_api_key := default default_server_api_key server_api_key in
  (* Create the whole directory path, if not exists. *)
  makedirs refused full_path true;;
  (* Require the directory to be empty beforehand. *)
  entries ← listdir full_path;
  (if decide (length entries ≠ 0)
   then raise (OSError_msg "Directory not empty") else ret tt);;
  (* Create the server path. *)
  makedirs refused (full_path ++ ["server"]) true;;
  (* Create all the files. *)
  _make_docker_compose_file full_path (Some mongodb_port) (Some http_port);;
  _make_env_file full_path (Some mongodb_port) (Some mongodb_user)
    (Some mongodb_pass) (Some server_api_key);;
  _make_dockerfile full_path;;
  _make_requirements_file full_path;;
  _make_init_file full_path;;
  _make_app_file full_path template.

End Generator.

End Project.

(** ** Reading the generated text files

    What an operator, or the tool that consumes the files, sees in them:
    the lines of a text, the [KEY=VALUE] assignments of an environment
    file, and the list items below a key of a service in the
    orchestration file. *)

Module Reader.

Definition LF : ascii := ascii_of_nat 10.

(** [s.split(d)] *)
Fixpoint split_on (d : ascii) (s : string) : list string :=
  match s with
  | EmptyString => [""]
  | String c s' =>
    if Ascii.eqb c d then "" :: split_on d s'
    else match split_on d s' with
         | l :: ls => String c l :: ls
         | [] => [String c ""]
         end
  end.

Definition lines (s : string) : list string := split_on LF s.

(** Every line followed by a line feed. *)
Definition unlines (ls : list string) : string :=
  foldr (λ l acc, l +:+ String LF acc) "" ls.

(** [no_char d s]: the character [d] does not occur in [s]. *)
Fixpoint no_char (d : ascii) (s : string) : bool :=
  match s with
  | EmptyString => true
  | String c s' => negb (Ascii.eqb c d) && no_char d s'
  end.

Definition single_line (s : string) : bool := no_char LF s.

(** The characters of a decimal numeral. *)
Definition numeral_char (c : ascii) : bool :=
  bool_decide (c ∈ ["0"; "1"; "2"; "3"; "4"; "5"; "6"; "7"; "8"; "9"; "-"]%char).

(** [cut d s]: the text before the first [d], and the text after it when
    there is one. *)
Fixpoint cut (d : ascii) (s : string) : string * option string :=
  match s with
  | EmptyString => ("", None)
  | String c s' =>
    if Ascii.eqb c d then ("", Some s')
    else let (a, r) := cut d s' in (String c a, r)
  end.

(** [strip_prefix pre s]: what follows [pre] in [s], when [s] starts with
    it. *)
Fixpoint strip_prefix (pre s : string) : option string :=
  match pre, s with
  | EmptyString, _ => Some s
  | String a pre', String b s' =>
    if Ascii.eqb a b then strip_prefix pre' s' else None
  | String _ _, EmptyString => None
  end.

(** *** Environment files *)

(** A line [KEY=VALUE], cut at its first [=]. *)
Definition assignment (line : string) : option (string * string) :=
  match cut "=" line with
  | (k, Some v) => Some (k, v)
  | (_, None) => None
  end.

Definition env_assignments (content : string) : list (string * string) :=
  omap assignment (lines content).

(** All the values assigned to [key], in the order of the file. *)
Definition env_values (key content : string) : list string :=
  omap (λ kv : string * string,
          if decide (kv.1 = key) then Some kv.2 else None)
       (env_assignments content).

(** The value of [key]: as for the readers of such files, a later
    assignment replaces an earlier one. *)
Definition env_value (key content : string) : option string :=
  last (env_values key content).

(** The keys whose value comes from the request. *)
Definition env_request_keys : list string :=
  [ "MONGO_INITDB_ROOT_USERNAME"; "MONGO_INITDB_ROOT_PASSWORD";
    "DB_PORT"; "DB_USER"; "DB_PASS"; "SERVER_API_KEY" ].

(** A line with the value of a request key blanked. *)
Definition env_blank_line (line : string) : string :=
  match assignment line with
  | Some (k, _) => if bool_decide (k ∈ env_request_keys) then k +:+ "=" else line
  | None => line
  end.

Definition env_blank (content : string) : list string :=
  env_blank_line <$> lines content.

(** *** Orchestration files *)

Inductive yaml_line : Type :=
| Service (name : string)   (* two spaces, a name, a colon *)
| Key (name : string)       (* four spaces, a name, a colon *)
| Item (text : string)      (* six spaces, a dash, a space, the item *)
| Other.

(** [name:] with nothing after the colon. *)
Definition opens_block (s : string) : option string :=
  match cut ":" s with
  | (name, Some "") => Some name
  | _ => None
  end.

Definition classify (line : string) : yaml_line :=
  match strip_prefix "      - " line with
  | Some text => Item text
  | None =>
    match strip_prefix "    " line with
    | Some rest =>
      match opens_block rest with Some name => Key name | None => Key "" end
    | None =>
      match strip_prefix "  " line with
      | Some rest =>
        match opens_block rest with
        | Some name => Service name
        | None => Other
        end
      | None => Other
      end
    end
  end.

(** The list items of the file, each with the service and the key it
    stands below. *)
Fixpoint items_from (service key : string) (ls : list string) :
    list (string * string * string) :=
  match ls with
  | [] => []
  | l :: ls' =>
    match classify l with
    | Service name => items_from name "" ls'
    | Key name => items_from service name ls'
    | Item text => (service, key, text) :: items_from service key ls'
    | Other => items_from service key ls'
    end
  end.

Definition service_items (service key content : string) : list string :=
  omap (λ e : string * string * string,
          if decide (e.1.1 = service ∧ e.1.2 = key) then Some e.2 else None)
       (items_from "" "" (lines content)).

(** A published port [HOST:CONTAINER] with its host part blanked. *)
Definition blank_published (text : string) : string :=
  "      - " +:+ match cut ":" text with
                 | (_, Some container) => ":" +:+ container
                 | (_, None) => ""
                 end.

(** The lines of the file with the host part of every published port
    and every exposed port blanked. *)
Fixpoint compose_blank_from (key : string) (ls : list string) : list string :=
  match ls with
  | [] => []
  | l :: ls' =>
    match classify l with
    | Key name => l :: compose_blank_from name ls'
    | Service _ => l :: compose_blank_from "" ls'
    | Item text =>
      (if decide (key = "ports") then blank_published text
       else if decide (key = "expose") then "      - "
       else l) :: compose_blank_from key ls'
    | Other => l :: compose_blank_from key ls'
    end
  end.

Definition compose_blank (content : string) : list string :=
  compose_blank_from "" (lines content).

(** *** What the two files say about a request *)

Definition env_carries (env : string) (mongodb_port : Z)
    (mongodb_user mongodb_pass server_api_key : string) : Prop :=
  env_value "MONGO_INITDB_ROOT_USERNAME" env = Some mongodb_user ∧
  env_value "MONGO_INITDB_ROOT_PASSWORD" env = Some mongodb_pass ∧
  env_value "DB_PORT" env = Some (Project.str mongodb_port) ∧
  env_value "DB_USER" env = Some mongodb_user ∧
  env_value "DB_PASS" env = Some mongodb_pass ∧
  env_value "SERVER_API_KEY" env = Some server_api_key.

Definition compose_carries (compose : string) (mongodb_port http_port : Z) : Prop :=
  service_items "mongodb" "ports" compose =
    [Project.str mongodb_port +:+ ":27017"] ∧
  service_items "mongodb" "expose" compose = [Project.str mongodb_port] ∧
  service_items "http" "ports" compose = [Project.str http_port +:+ ":8080"] ∧
  service_items "http" "expose" compose = [Project.str http_port].

End Reader.

(** ** The shape of a generated project *)

Module Layout.
Import OS Project.

(** What lies below the target directory after a complete run, by path
    relative to it: the six artifacts, and the directory [server]. *)
Definition project_tree (compose env app : string) : gmap (list string) node :=
  list_to_map
    [ (["docker-compose.yml"], File compose);
      ([".env"], File env);
      (["server"], Dir);
      (["server"; "Dockerfile"], File dockerfile_contents);
      (["server"; "requirements.txt"], File requirements_contents);
      (["server"; "__init__.py"], File "");
      (["server"; "app.py"], File app) ].

(** The filesystem once the five composed files are written. *)
Definition composed (full_path : path) (compose env : string) (σ : fs) : fs :=
  <[full_path ++ ["server"; "__init__.py"] := File ""]>
    (<[full_path ++ ["server"; "requirements.txt"] := File requirements_contents]>
       (<[full_path ++ ["server"; "Dockerfile"] := File dockerfile_contents]>
          (<[full_path ++ [".env"] := File env]>
             (<[full_path ++ ["docker-compose.yml"] := File compose]> σ)))).

(** A target that is either absent, with no regular file on the way to
    it, or a directory without entries. *)
Definition fresh_target (σ : fs) (p : path) : bool :=
  creatable σ p && bool_decide (children σ p = []).

(** [prepared full_path σ σ']: [σ'] is [σ] with the target directory and
    its [server] directory in place, every directory on the way
    included. *)
Definition prepared (full_path : path) (σ σ' : fs) : Prop :=
  fs_wf σ' ∧
  ∀ q, σ' !! q =
       if decide (q `prefix_of` full_path ++ ["server"]) then Some Dir
       else σ !! q.

(** The composers that produce text from the request. *)
Inductive composer : Type :=
| Orchestration
| Environment
| BuildFile
| Manifest.

Definition composer_path (c : composer) (project_path : path) : path :=
  match c with
  | Orchestration => project_path ++ ["docker-compose.yml"]
  | Environment => project_path ++ [".env"]
  | BuildFile => project_path ++ ["server"; "Dockerfile"]
  | Manifest => project_path ++ ["server"; "requirements.txt"]
  end.

Section Steps.

Variable refused : path → option OSError.
Variable resolve : string → option path.
Variable pkg_dir : path.

Definition run_composer (c : composer) (project_path : path)
    (mongodb_port http_port : option Z)
    (mongodb_user mongodb_pass server_api_key : option string) : io unit :=
  match c with
  | Orchestration =>
    _make_docker_compose_file refused project_path mongodb_port http_port
  | Environment =>
    _make_env_file refused project_path mongodb_port mongodb_user
      mongodb_pass server_api_key
  | BuildFile => _make_dockerfile refused project_path
  | Manifest => _make_requirements_file refused project_path
  end.

(** The statements of [generate_project] before the first artifact. *)
Definition prepare (full_path : path) : io unit :=
  makedirs refused full_path true;;
  entries ← listdir full_path;
  (if decide (length entries ≠ 0)
   then raise (OSError_msg "Directory not empty") else ret tt);;
  makedirs refused (full_path ++ ["server"]) true.

(** The six calls that end [generate_project], in order. *)
Definition artifact_steps (full_path : path) (template : string)
    (mongodb_port http_port : Z)
    (mongodb_user mongodb_pass server_api_key : string) : list (io unit) :=
  [ _make_docker_compose_file refused full_path
      (Some mongodb_port) (Some http_port);
    _make_env_file refused full_path (Some mongodb_port) (Some mongodb_user)
      (Some mongodb_pass) (Some server_api_key);
    _make_dockerfile refused full_path;
    _make_requirements_file refused full_path;
    _make_init_file refused full_path;
    _make_app_file refused resolve pkg_dir full_path template ].

(** What each of the first five calls writes, in the same order. *)
Definition artifact_outputs (full_path : path) (mongodb_port http_port : Z)
    (mongodb_user mongodb_pass server_api_key : string) :
    list (path * string) :=
  [ (full_path ++ ["docker-compose.yml"],
     docker_compose_contents mongodb_port http_port);
    (full_path ++ [".env"],
     env_contents mongodb_port mongodb_user mongodb_pass server_api_key);
    (full_path ++ ["server"; "Dockerfile"], dockerfile_contents);
    (full_path ++ ["server"; "requirements.txt"], requirements_contents);
    (full_path ++ ["server"; "__init__.py"], "") ].

End Steps.

End Layout.

(** ** An installation and a resolver for the examples *)

Module Demo.
Import OS Project.

(** Path strings read the POSIX way, without symbolic links: components
    between slashes, [.] and empty components dropped, [..] going up,
    relative strings below the working directory. *)
Definition posix_resolve (cwd : path) (s : string) : option path :=
  if decide (s = "") then None
  else
    let start := match s with
                 | String "/" _ => []
                 | _ => cwd
                 end in
    Some (foldl (λ acc c,
                   if decide (c = "" ∨ c = ".") then acc
                   else if decide (c = "..") then removelast acc
                   else acc ++ [c])
                start (Reader.split_on "/" s)).

Definition resolve : string → option path := posix_resolve ["home"; "dev"].

(** The directory [generators/] of the repository, as it is laid out
    there: [project.py], and the bundled template below [templates/]. *)
Definition repository_layout (project_py simple_template : string) :
    list (path * node) :=
  [ (["project.py"], File project_py);
    (["templates"], Dir);
    (["templates"; "simple-application-template.py"], File simple_template) ].

(** The entries [layout], given relative to [dir], put below [dir]. *)
Definition install (dir : path) (layout : list (path * node)) (σ : fs) : fs :=
  foldr (λ e acc, <[dir ++ e.1 := e.2]> acc) σ layout.

Definition pkg_dir : path := ["opt"; "generators"].

Definition base_fs : fs :=
  list_to_map
    [ ([], Dir); (["tmp"], Dir); (["home"], Dir); (["home"; "dev"], Dir);
      (["home"; "dev"; "my_app.py"], File "app = None
");
      (["home"; "dev"; "blank.py"], File "");
      (["home"; "dev"; "notes.txt"], File "to do");
      (["home"; "dev"; "site"], Dir);
      (["home"; "dev"; "site"; "index.html"], File "<html/>");
      (["opt"], Dir); (["opt"; "generators"], Dir) ].

(** A machine with the generator installed from the repository. *)
Definition machine (project_py simple_template : string) : fs :=
  install pkg_dir (repository_layout project_py simple_template) base_fs.

Definition nothing_refused : path → option OSError := λ _, None.

(** An environment in which [server/requirements.txt] of the project
    cannot be written. *)
Definition requirements_refused : path → option OSError :=
  λ p, if decide (p = ["tmp"; "proj1"; "server"; "requirements.txt"])
       then Some PermissionError else None.

End Demo.

(** ** What a run may change *)

Module Effects.
Import OS Project Layout.

(** [dirs_added name σ σ']: [σ'] is [σ] with directories put at some of
    the prefixes of [name] where nothing was. *)
Definition dirs_added (name : path) (σ σ' : fs) : Prop :=
  ∀ q, σ' !! q = σ !! q ∨
       (σ !! q = None ∧ σ' !! q = Some Dir ∧ q `prefix_of` name).

(** The paths of the six artifacts of a project. *)
Definition artifact_paths (full_path : path) : list path :=
  [ full_path ++ ["docker-compose.yml"];
    full_path ++ [".env"];
    full_path ++ ["server"; "Dockerfile"];
    full_path ++ ["server"; "requirements.txt"];
    full_path ++ ["server"; "__init__.py"];
    full_path ++ ["server"; "app.py"] ].

(** The first [n] of [outputs] written, in their order. *)
Definition written (n : nat) (outputs : list (path * string)) (σ : fs) : fs :=
  foldl (λ acc out, <[out.1 := File out.2]> acc) σ (take n outputs).

(** What holds of the filesystem [σ1] that the preparation leaves when it
    returns, [σ] being the one it found. *)
Definition ready (full_path : path) (σ σ1 : fs) : Prop :=
  fresh_target σ full_path = true ∧
  σ1 !! full_path = Some Dir ∧
  σ1 !! (full_path ++ ["server"]) = Some Dir ∧
  ∀ rel, rel ≠ [] → rel ≠ ["server"] → σ1 !! (full_path ++ rel) = None.

End Effects.

(** ** The bundled template: [templates/simple-application-template.py]

    What the template does on its own account: it reads the process
    environment into its connection settings when the class
    [Application] is created, and seeds the API key on the first start.
    The database is seen through the calls the template makes of it,
    [find_one()] and [insert_one(doc)] on a collection of a running
    server; a server that cannot be reached is not part of the model. *)

Module Template.

Inductive exn : Type :=
| KeyError (key : string)
| ValueError (text : string).

Inductive outcome (A : Type) : Type :=
| Returns (a : A)
| Raises (e : exn).
Arguments Returns {A} a.
Arguments Raises {A} e.

#[export] Instance outcome_ret : MRet outcome := @Returns.
#[export] Instance outcome_bind : MBind outcome :=
  λ A B k m, match m with Returns a => k a | Raises e => Raises e end.

Inductive value : Type :=
| VBool (b : bool)
| VStr (s : string).

(** A stored document, by its fields other than [_id]; with its [_id] it
    is never an empty dictionary. *)
Abbreviation document := (list (string * value)).

(** A [MongoClient]: the documents of each collection of each database,
    in the order they were inserted. *)
Abbreviation mongo := (gmap (string * string) (list (list (string * value)))).

(** [client[db][name]], empty until something is inserted. *)
Definition collection (client : mongo) (db name : string) : list document :=
  default [] (client !! (db, name)).

(** [client[db][name].find_one()] *)
Definition find_one (client : mongo) (db name : string) : option document :=
  head (collection client db name).

(** [client[db][name].insert_one(doc)] *)
Definition insert_one (client : mongo) (db name : string) (doc : document) :
    mongo :=
  <[(db, name) := collection client db name ++ [doc]]> client.

(** [not result], for what [find_one] gives. *)
Definition not_ (result : option document) : bool :=
  match result with
  | None => true
  | Some _ => false
  end.

Record connection : Type :=
  { host : string; port : Z; user : string; password : string }.

Section Process.

(** [os.environ] *)
Variable environ : string → option string.

(** The builtin [int] on a string, [None] where it raises [ValueError]. *)
Variable int : string → option Z.

(** [os.environ[key]] *)
Definition environ_get (key : string) : outcome string :=
  match environ key with
  | Some v => Returns v
  | None => Raises (KeyError key)
  end.

(** [SETTINGS["connection"]], evaluated in the order it is written. *)
Definition SETTINGS_connection : outcome connection :=
  host ← environ_get "DB_HOST";
  port_text ← environ_get "DB_PORT";
  port ← match int port_text with
         | Some n => Returns n
         | None => Raises (ValueError port_text)
         end;
  user ← environ_get "DB_USER";
  password ← environ_get "DB_PASS";
  mret {| host := host; port := port; user := user; password := password |}.

(** [SETTINGS["auth"]]: database and collection of the API keys. *)
Definition SETTINGS_auth : string * string := ("auth-db", "api-keys").

(** The [try] block of [Application.__init__]. *)
Definition try_setup (client : mongo) : mongo * outcome unit :=
  let result := find_one client "lifecycle" "setup" in
  if not_ result then
    let client := insert_one client "lifecycle" "setup" [("done", VBool true)] in
    match environ_get "SERVER_API_KEY" with
    | Returns key =>
      (insert_one client "auth-db" "api-keys" [("api-key", VStr key)],
       Returns tt)
    | Raises e => (client, Raises e)
    end
  else (client, Returns tt).

(** [Application.__init__], from the return of the initialiser of the
    base class on: the block, and [except: pass]. *)
Definition Application_init (client : mongo) : mongo :=
  (try_setup client).1.

End Process.

(** The environment a process gets from an environment file. *)
Definition environ_of_file (content : string) : string → option string :=
  λ key, Reader.env_value key content.

(** Decimal numerals as [str] writes them, read back. *)
Definition decimal_int (text : string) : option Z :=
  Z.of_int <$> NilZero.int_of_string text.

End Template.

(** ** Proof steps used throughout *)

Module Tactics.
Import OS.

(** Sequencing in [io], unfolded to the matches it stands for. *)
Ltac io_unfold :=
  unfold mbind, io_bind, bind, mret, io_ret, ret, raise, try_except,
    path_exists, path_isdir in *.

(** Two paths below the same directory differ when what follows the
    directory differs. *)
Ltac path_ne :=
  let E := fresh "E" in
  intros E;
  first
    [ apply app_inv_head in E; discriminate
    | apply (f_equal length) in E; rewrite ?length_app in E; simpl in E; lia ].

(** Decidable facts about closed terms are settled by evaluation. *)
Ltac by_evaluation :=
  match goal with
  | |- ?P => apply (@bool_decide_eq_true_1 P _); vm_compute; reflexivity
  end.

End Tactics.
(** ** Facts about the operating system model *)

Module OSFacts.
Import OS.

Lemma parent_nil : parent [] = None.
Proof. reflexivity. Qed.

Lemma parent_snoc (p : path) (n : string) : parent (p ++ [n]) = Some p.
Proof. unfold parent. rewrite rev_app_distr. simpl. by rewrite rev_involutive. Qed.

Lemma parent_Some (p q : path) : parent p = Some q → ∃ n, p = q ++ [n].
Proof.
  unfold parent. destruct (rev p) as [|n r] eqn:E; [done|].
  intros [= <-]. exists n.
  rewrite <- (rev_involutive p), E. reflexivity.
Qed.

Lemma basename_snoc (p : path) (n : string) : basename (p ++ [n]) = n.
Proof. unfold basename. by rewrite rev_app_distr. Qed.

Lemma child_of_snoc (p : path) (n : string) : child_of p (p ++ [n]) = Some n.
Proof. induction p as [|a p IH]; simpl; [done|]. by rewrite decide_True. Qed.

Lemma child_of_Some (p q : path) (n : string) :
  child_of p q = Some n → q = p ++ [n].
Proof.
  revert q. induction p as [|a p IH]; intros q; simpl.
  - destruct q as [|b [|c q]]; intros [=]; by subst.
  - destruct q as [|b q]; [done|]. case_decide as Eab; [|done].
    intros Hc. subst. f_equal. by apply IH.
Qed.

Lemma children_nil (σ : fs) (p : path) :
  children σ p = [] ↔ ∀ n : string, σ !! (p ++ [n]) = None.
Proof.
  unfold children. split.
  - intros Hnil n. destruct (σ !! (p ++ [n])) as [x|] eqn:E; [|done].
    apply elem_of_map_to_list in E.
    assert (n ∈ omap (λ kv : path * node, child_of p kv.1) (map_to_list σ)) as Hin.
    { apply list_elem_of_omap. exists (p ++ [n], x). split; [done|].
      simpl. apply child_of_snoc. }
    rewrite Hnil in Hin. by apply elem_of_nil in Hin.
  - intros Hnone.
    destruct (omap _ _) as [|n l] eqn:E; [done|]. exfalso.
    assert (n ∈ omap (λ kv : path * node, child_of p kv.1) (map_to_list σ)) as Hin.
    { rewrite E. left. }
    apply list_elem_of_omap in Hin as ([q x] & Hq & Hc). simpl in Hc.
    apply child_of_Some in Hc. subst q.
    apply elem_of_map_to_list in Hq. by rewrite Hnone in Hq.
Qed.

Lemma isdir_true (σ : fs) (p : path) : isdir σ p = true ↔ σ !! p = Some Dir.
Proof. unfold isdir. destruct (σ !! p) as [[]|]; naive_solver. Qed.

Lemma isfile_false (σ : fs) (p : path) :
  isfile σ p = false ↔ ∀ c, σ !! p ≠ Some (File c).
Proof. unfold isfile. destruct (σ !! p) as [[]|]; naive_solver. Qed.

Lemma well_formed_wf (σ : fs) : well_formed σ = true → fs_wf σ.
Proof.
  unfold well_formed. intros [Hroot Hall]%andb_true_iff.
  split; [by apply isdir_true|].
  intros p n [x Hx].
  rewrite forallb_forall in Hall.
  specialize (Hall (p ++ [n], x)). simpl in Hall.
  rewrite parent_snoc in Hall. apply isdir_true, Hall.
  apply list_elem_of_In. by apply elem_of_map_to_list.
Qed.

Lemma prefixes_spec (p q : path) : q ∈ prefixes p ↔ q `prefix_of` p.
Proof.
  revert q. induction p as [|n p IH]; intros q; simpl.
  - rewrite list_elem_of_singleton. split; [intros ->; done|].
    intros H. by apply prefix_nil_inv in H.
  - rewrite elem_of_cons, list_elem_of_fmap. split.
    + intros [->|[q' [-> Hq']]]; [apply prefix_nil|].
      apply prefix_cons, IH, Hq'.
    + destruct q as [|m q]; [by left|]. intros H. right.
      pose proof (prefix_cons_inv_1 _ _ _ _ H) as ->.
      exists q. split; [done|]. apply IH. by eapply prefix_cons_inv_2.
Qed.

Lemma creatable_spec (σ : fs) (p : path) :
  creatable σ p = true ↔ ∀ q, q `prefix_of` p → isfile σ q = false.
Proof.
  unfold creatable. rewrite forallb_forall. split.
  - intros H q Hq. apply negb_true_iff, H, list_elem_of_In, prefixes_spec, Hq.
  - intros H q Hq. apply negb_true_iff, H, prefixes_spec, list_elem_of_In, Hq.
Qed.

Lemma prefix_snoc (p q : path) (n : string) :
  q `prefix_of` p ++ [n] ↔ q `prefix_of` p ∨ q = p ++ [n].
Proof.
  split.
  - intros [k Hk]. destruct (decide (k = [])) as [->|Hne].
    + right. by rewrite app_nil_r in Hk.
    + left. destruct (exists_last Hne) as (k' & m & ->).
      rewrite app_assoc in Hk. apply app_inj_tail in Hk as [-> _].
      by exists k'.
  - intros [H| ->]; [by apply prefix_app_r|done].
Qed.

(** In a well-formed tree whatever lies above an entry is a directory. *)
Lemma wf_above (σ : fs) (p rel : path) :
  fs_wf σ → rel ≠ [] → is_Some (σ !! (p ++ rel)) → σ !! p = Some Dir.
Proof.
  intros [_ Hwf]. revert p. induction rel as [|n rel IH] using rev_ind; [done|].
  intros p _ Hs. rewrite app_assoc in Hs. apply Hwf in Hs.
  destruct (decide (rel = [])) as [->|Hne].
  - by rewrite app_nil_r in Hs.
  - apply IH; [done|]. by rewrite Hs.
Qed.

Lemma wf_prefix_dir (σ : fs) (p q : path) :
  fs_wf σ → q `prefix_of` p → σ !! p = Some Dir → σ !! q = Some Dir.
Proof.
  intros Hwf [k ->] Hp. destruct (decide (k = [])) as [->|Hne].
  - by rewrite app_nil_r in Hp.
  - eapply wf_above; [done..|]. by rewrite Hp.
Qed.

Lemma wf_insert_dir (σ : fs) (p : path) (n : string) :
  fs_wf σ → σ !! p = Some Dir → σ !! (p ++ [n]) = None →
  fs_wf (<[p ++ [n] := Dir]> σ).
Proof.
  intros [Hroot Hwf] Hp Hn. split.
  - rewrite lookup_insert_ne; [done|]. by destruct p.
  - intros q m. rewrite lookup_insert. case_decide as E.
    + intros _. apply app_inj_tail in E as [-> ->].
      rewrite lookup_insert_ne; [done|].
      intros E. apply (f_equal length) in E. rewrite length_app in E. simpl in E. lia.
    + intros Hs. rewrite lookup_insert. case_decide; [done|]. by apply (Hwf q m).
Qed.

Lemma wf_insert_file (σ : fs) (p : path) (n : string) (c : string) :
  fs_wf σ → σ !! p = Some Dir → σ !! (p ++ [n]) ≠ Some Dir →
  fs_wf (<[p ++ [n] := File c]> σ).
Proof.
  intros [Hroot Hwf] Hp Hn. split.
  - rewrite lookup_insert_ne; [done|]. by destruct p.
  - intros q m. rewrite lookup_insert. case_decide as E.
    + intros _. apply app_inj_tail in E as [-> ->].
      rewrite lookup_insert_ne; [done|].
      intros E. apply (f_equal length) in E. rewrite length_app in E. simpl in E. lia.
    + intros Hs. rewrite lookup_insert. case_decide as E2; [|by apply (Hwf q m)].
      subst q. apply Hwf in Hs. congruence.
Qed.

End OSFacts.

Module PrimFacts.
Import OS OSFacts Tactics.

Section WithRefusals.

Variable refused : path → option OSError.

Lemma mkdir_new (σ : fs) (p : path) (n : string) :
  σ !! p = Some Dir → σ !! (p ++ [n]) = None → refused (p ++ [n]) = None →
  mkdir refused (p ++ [n]) σ = (<[p ++ [n] := Dir]> σ, Ok tt).
Proof. intros Hp Hn Hr. unfold mkdir. by rewrite Hn, parent_snoc, Hp, Hr. Qed.

Lemma mkdir_present (σ : fs) (p : path) :
  is_Some (σ !! p) → mkdir refused p σ = (σ, Raise FileExistsError).
Proof. intros [x Hx]. unfold mkdir. by rewrite Hx. Qed.

(** [makedirs_rev], one level of the recursion spelled out. *)
Lemma makedirs_rev_unfold (rname : path) (exist_ok : bool) (σ : fs) :
  makedirs_rev refused rname exist_ok σ =
  match (match rname with
         | [] => (σ, Ok tt)
         | _ :: rhead =>
           if exists_ σ (rev rhead) then (σ, Ok tt)
           else match makedirs_rev refused rhead exist_ok σ with
                | (σ', Raise FileExistsError) => (σ', Ok tt)
                | r => r
                end
         end) with
  | (σ1, Ok _) =>
    match mkdir refused (rev rname) σ1 with
    | (σ2, Raise e) =>
      if negb exist_ok || negb (isdir σ2 (rev rname))
      then (σ2, Raise e) else (σ2, Ok tt)
    | r => r
    end
  | (σ1, Raise e) => (σ1, Raise e)
  end.
Proof.
  assert (∀ (name : path) (τ : fs),
    (let (σ2, r) := mkdir refused name τ in
     match r with
     | Ok a => (σ2, Ok a)
     | Raise e =>
       (if negb exist_ok || negb (isdir σ2 name)
        then λ σ0 : fs, (σ0, Raise e) else λ σ0 : fs, (σ0, Ok tt)) σ2
     end) =
    match mkdir refused name τ with
    | (σ2, Raise e) =>
      if negb exist_ok || negb (isdir σ2 name) then (σ2, Raise e) else (σ2, Ok tt)
    | r => r
    end) as Hleaf.
  { intros name τ. destruct (mkdir refused name τ) as [σ2 [[]|e]]; [done|].
    by destruct (negb exist_ok || negb (isdir σ2 name)). }
  destruct rname as [|t rhead]; simpl; io_unfold; [apply Hleaf|].
  destruct (exists_ σ (rev rhead)); [apply Hleaf|].
  destruct (makedirs_rev refused rhead exist_ok σ) as [σ' [[]|e]]; [apply Hleaf|].
  destruct e; solve [done | apply Hleaf].
Qed.

Lemma makedirs_existing_dir (σ : fs) (p : path) :
  fs_wf σ → σ !! p = Some Dir → makedirs refused p true σ = (σ, Ok tt).
Proof.
  intros Hwf Hp. unfold makedirs. rewrite makedirs_rev_unfold.
  rewrite rev_involutive.
  assert ((match rev p with
           | [] => (σ, Ok tt)
           | _ :: rhead =>
             if exists_ σ (rev rhead) then (σ, Ok tt)
             else match makedirs_rev refused rhead true σ with
                  | (σ', Raise FileExistsError) => (σ', Ok tt)
                  | r => r
                  end
           end) = (σ, Ok tt)) as ->.
  { destruct (rev p) as [|t rhead] eqn:E; [done|].
    assert (p = rev rhead ++ [t]) as ->.
    { rewrite <- (rev_involutive p), E. done. }
    destruct Hwf as [_ Hwf]. unfold exists_.
    rewrite (Hwf (rev rhead) t); [done|]. by rewrite Hp. }
  rewrite mkdir_present; [|by rewrite Hp].
  apply isdir_true in Hp. by rewrite Hp.
Qed.

Lemma makedirs_existing_file (σ : fs) (p : path) (c : string) :
  fs_wf σ → σ !! p = Some (File c) →
  makedirs refused p true σ = (σ, Raise FileExistsError).
Proof.
  intros Hwf Hp. unfold makedirs. rewrite makedirs_rev_unfold.
  rewrite rev_involutive.
  assert ((match rev p with
           | [] => (σ, Ok tt)
           | _ :: rhead =>
             if exists_ σ (rev rhead) then (σ, Ok tt)
             else match makedirs_rev refused rhead true σ with
                  | (σ', Raise FileExistsError) => (σ', Ok tt)
                  | r => r
                  end
           end) = (σ, Ok tt)) as ->.
  { destruct (rev p) as [|t rhead] eqn:E; [done|].
    assert (p = rev rhead ++ [t]) as ->.
    { rewrite <- (rev_involutive p), E. done. }
    destruct Hwf as [_ Hwf]. unfold exists_.
    rewrite (Hwf (rev rhead) t); [done|]. by rewrite Hp. }
  rewrite mkdir_present; [|by rewrite Hp].
  unfold isdir. by rewrite Hp.
Qed.

(** Creating a directory path that no regular file obstructs: every
    prefix of the path ends up a directory, nothing else changes. *)
Lemma makedirs_rev_creates (rname : path) :
  ∀ σ : fs,
    fs_wf σ →
    (∀ q, q `prefix_of` rev rname → isfile σ q = false) →
    (∀ q, refused q = None) →
    ∃ σ' : fs,
      makedirs_rev refused rname true σ = (σ', Ok tt) ∧ fs_wf σ' ∧
      ∀ q, σ' !! q = if decide (q `prefix_of` rev rname) then Some Dir else σ !! q.
Proof.
  induction rname as [|t rhead IH]; intros σ Hwf Hnf Hr.
  - rewrite makedirs_rev_unfold. simpl.
    rewrite mkdir_present; [|by rewrite (proj1 Hwf)].
    unfold isdir. rewrite (proj1 Hwf). simpl.
    exists σ. split; [done|]. split; [done|].
    intros q. case_decide as Hq; [|done].
    apply prefix_nil_inv in Hq as ->. apply Hwf.
  - rewrite makedirs_rev_unfold. simpl rev.
    assert (∃ σ1 : fs,
      (if exists_ σ (rev rhead) then (σ, Ok tt)
       else match makedirs_rev refused rhead true σ with
            | (σ', Raise FileExistsError) => (σ', Ok tt)
            | r => r
            end) = (σ1, Ok tt) ∧ fs_wf σ1 ∧
      ∀ q, σ1 !! q = if decide (q `prefix_of` rev rhead) then Some Dir else σ !! q)
      as (σ1 & -> & Hwf1 & Hσ1).
    { destruct (exists_ σ (rev rhead)) eqn:Ex.
      - exists σ. split; [done|]. split; [done|].
        intros q. case_decide as Hq; [|done].
        assert (σ !! rev rhead = Some Dir) as Hd.
        { unfold exists_ in Ex. destruct (σ !! rev rhead) as [[c|]|] eqn:E; [|done..].
          specialize (Hnf (rev rhead)). rewrite isfile_false in Hnf.
          exfalso. eapply Hnf; [|done]. simpl. by apply prefix_app_r. }
        by eapply wf_prefix_dir.
      - destruct (IH σ Hwf) as (σ1 & E1 & Hwf1 & Hσ1); [|done|].
        { intros q Hq. apply Hnf. simpl. by apply prefix_app_r. }
        rewrite E1. by exists σ1. }
    assert (σ1 !! rev rhead = Some Dir) as Hhead.
    { rewrite Hσ1. by rewrite decide_True. }
    assert (σ1 !! (rev rhead ++ [t]) = σ !! (rev rhead ++ [t])) as Hleaf.
    { rewrite Hσ1. rewrite decide_False; [done|]. apply prefix_snoc_not. }
    destruct (σ !! (rev rhead ++ [t])) as [x|] eqn:Ex.
    + assert (x = Dir) as ->.
      { destruct x as [c|]; [|done]. exfalso.
        specialize (Hnf (rev rhead ++ [t])). rewrite isfile_false in Hnf.
        eapply Hnf; [|done]. done. }
      rewrite mkdir_present; [|by rewrite Hleaf].
      unfold isdir. rewrite Hleaf. simpl.
      exists σ1. split; [done|]. split; [done|].
      intros q. rewrite Hσ1. repeat case_decide; try done.
      * exfalso. rename select (¬ _) into Hn. apply Hn. by apply prefix_app_r.
      * rename select (_ `prefix_of` _ ++ _) into Hq.
        apply prefix_snoc in Hq as [?| ->]; [done|]. by rewrite Ex.
    + rewrite mkdir_new; [|done|by rewrite Hleaf|done].
      eexists. split; [done|]. split.
      { apply wf_insert_dir; [done..|by rewrite Hleaf]. }
      intros q. rewrite lookup_insert. case_decide as E.
      * subst q. by rewrite decide_True.
      * rewrite Hσ1. repeat case_decide; try done.
        -- exfalso. rename select (¬ _) into Hn. apply Hn. by apply prefix_app_r.
        -- rename select (_ `prefix_of` _ ++ _) into Hq.
           apply prefix_snoc in Hq as [?| ->]; done.
Qed.

Lemma makedirs_creates (σ : fs) (p : path) :
  fs_wf σ → creatable σ p = true → (∀ q, refused q = None) →
  ∃ σ' : fs,
    makedirs refused p true σ = (σ', Ok tt) ∧ fs_wf σ' ∧
    ∀ q, σ' !! q = if decide (q `prefix_of` p) then Some Dir else σ !! q.
Proof.
  intros Hwf Hc Hr. unfold makedirs.
  destruct (makedirs_rev_creates (rev p) σ Hwf) as (σ' & E & Hwf' & Hσ'); [|done|].
  - rewrite rev_involutive. by apply creatable_spec.
  - rewrite rev_involutive in Hσ'. by exists σ'.
Qed.

Lemma write_file_ok (σ : fs) (p : path) (n data : string) :
  σ !! p = Some Dir → σ !! (p ++ [n]) ≠ Some Dir → refused (p ++ [n]) = None →
  write_file refused (p ++ [n]) data σ = (<[p ++ [n] := File data]> σ, Ok tt).
Proof.
  intros Hp Hn Hr. unfold write_file. rewrite parent_snoc, Hp, Hr.
  by destruct (σ !! (p ++ [n])) as [[]|].
Qed.

(** A write either stores the file or raises and changes nothing. *)
Lemma write_file_cases (σ σ' : fs) (p : path) (data : string) (r : result unit) :
  write_file refused p data σ = (σ', r) →
  (r = Ok tt ∧ σ' = <[p := File data]> σ) ∨ (∃ e, r = Raise e ∧ σ' = σ).
Proof.
  unfold write_file. intros H.
  destruct (σ !! p) as [[c|]|]; destruct (parent p) as [q|];
    try destruct (σ !! q) as [[c'|]|]; try destruct (refused p);
    inversion H; subst; eauto.
Qed.

Lemma shutil_copy_cases (σ σ' : fs) (src : option path) (dst : path)
    (r : result unit) :
  shutil_copy refused src dst σ = (σ', r) →
  (r = Ok tt ∧ ∃ s data, src = Some s ∧ σ !! s = Some (File data) ∧
     σ' = <[(if isdir σ dst then dst ++ [basename s] else dst) := File data]> σ) ∨
  (∃ e, r = Raise e ∧ σ' = σ).
Proof.
  unfold shutil_copy. intros H.
  destruct src as [s|]; [|inversion H; eauto].
  destruct (bool_decide _ && exists_ σ s); [inversion H; eauto|].
  destruct (σ !! s) as [[data|]|] eqn:Es; [|inversion H; eauto..].
  apply write_file_cases in H as [[-> ->]|?]; [|by right].
  left. split; [done|]. eauto 10.
Qed.

Lemma shutil_copy_missing (σ : fs) (src : option path) (dst : path) :
  (∀ s, src = Some s → σ !! s = None) →
  shutil_copy refused src dst σ = (σ, Raise FileNotFoundError).
Proof.
  intros H. unfold shutil_copy, exists_. destruct src as [s|]; [|done].
  rewrite (H s) by done. by rewrite andb_false_r.
Qed.

Lemma shutil_copy_ok (σ : fs) (s p : path) (n data : string) :
  σ !! s = Some (File data) → σ !! p = Some Dir → σ !! (p ++ [n]) = None →
  refused (p ++ [n]) = None →
  shutil_copy refused (Some s) (p ++ [n]) σ = (<[p ++ [n] := File data]> σ, Ok tt).
Proof.
  intros Hs Hp Hn Hr. unfold shutil_copy, isdir. rewrite Hn, Hs.
  rewrite bool_decide_eq_false_2 by congruence. simpl.
  apply write_file_ok; [done| |done]. by rewrite Hn.
Qed.

Lemma listdir_dir (σ : fs) (p : path) :
  σ !! p = Some Dir → listdir p σ = (σ, Ok (children σ p)).
Proof. intros Hp. unfold listdir. by rewrite Hp. Qed.

End WithRefusals.

End PrimFacts.

(** ** Facts about the readers *)

Module ReaderFacts.
Import Project Reader.

Lemma no_char_app (d : ascii) (a b : string) :
  no_char d (a +:+ b) = no_char d a && no_char d b.
Proof. induction a as [|c a IH]; simpl; [done|]. rewrite IH. by rewrite andb_assoc. Qed.

Lemma split_on_nonempty (d : ascii) (s : string) : split_on d s ≠ [].
Proof.
  induction s as [|c s IH]; simpl; [done|].
  destruct (Ascii.eqb c d); [done|]. by destruct (split_on d s).
Qed.

(** A text without [d], then [d]: the text is the first piece. *)
Lemma split_on_cons (d : ascii) (a r : string) :
  no_char d a = true → split_on d (a +:+ String d r) = a :: split_on d r.
Proof.
  induction a as [|c a IH]; simpl.
  - intros _. by rewrite Ascii.eqb_refl.
  - intros [Hc Ha]%andb_true_iff. apply negb_true_iff in Hc.
    rewrite Hc, IH; done.
Qed.

Lemma lines_unlines (ls : list string) :
  forallb single_line ls = true → lines (unlines ls) = ls ++ [""].
Proof.
  unfold lines. induction ls as [|l ls IH]; simpl; [done|].
  intros [Hl Hls]%andb_true_iff.
  rewrite split_on_cons; [|done]. by rewrite IH.
Qed.

Lemma cut_app (d : ascii) (a r : string) :
  no_char d a = true → cut d (a +:+ String d r) = (a, Some r).
Proof.
  induction a as [|c a IH]; simpl.
  - intros _. by rewrite Ascii.eqb_refl.
  - intros [Hc Ha]%andb_true_iff. apply negb_true_iff in Hc.
    rewrite Hc, IH; done.
Qed.

Lemma cut_none (d : ascii) (a : string) :
  no_char d a = true → cut d a = (a, None).
Proof.
  induction a as [|c a IH]; simpl; [done|].
  intros [Hc Ha]%andb_true_iff. apply negb_true_iff in Hc.
  rewrite Hc, IH; done.
Qed.

Lemma string_of_uint_no_char (d : ascii) (u : Decimal.uint) :
  numeral_char d = false → no_char d (NilEmpty.string_of_uint u) = true.
Proof.
  intros Hd. induction u; cbn [NilEmpty.string_of_uint no_char]; [done|..];
    (rewrite IHu, andb_true_r; apply negb_true_iff, Ascii.eqb_neq;
     intros <-; by vm_compute in Hd).
Qed.

Lemma str_no_char (d : ascii) (n : Z) :
  numeral_char d = false → no_char d (str n) = true.
Proof.
  intros Hd. unfold str.
  assert (∀ u, no_char d (NilZero.string_of_uint u) = true) as Hu.
  { intros u. destruct u; try apply (string_of_uint_no_char d _ Hd).
    cbn [NilZero.string_of_uint no_char]. rewrite andb_true_r. apply negb_true_iff, Ascii.eqb_neq.
    intros <-. by vm_compute in Hd. }
  destruct (Z.to_int n) as [u|u];
    cbn [NilZero.string_of_int no_char]; [apply Hu|].
  rewrite Hu, andb_true_r. apply negb_true_iff, Ascii.eqb_neq.
  intros <-. by vm_compute in Hd.
Qed.

Lemma str_single_line (n : Z) : single_line (str n) = true.
Proof. by apply str_no_char. Qed.

Lemma str_nonempty (n : Z) : str n ≠ "".
Proof.
  unfold str.
  assert (∀ u, NilZero.string_of_uint u ≠ "") as Hu.
  { intros u. destruct u; simpl; done. }
  destruct (Z.to_int n) as [u|u]; simpl; [apply Hu|done].
Qed.

End ReaderFacts.

(** ** How a run of the generator unfolds *)

Module RunFacts.
Import OS OSFacts PrimFacts Project Layout Tactics.

Lemma fresh_target_spec (σ : fs) (p : path) :
  fresh_target σ p = true ↔
  creatable σ p = true ∧ ∀ n : string, σ !! (p ++ [n]) = None.
Proof.
  unfold fresh_target. rewrite andb_true_iff, bool_decide_eq_true.
  by rewrite children_nil.
Qed.

(** Nothing lies below a fresh target. *)
Lemma fresh_target_below (σ : fs) (p rel : path) :
  fs_wf σ → fresh_target σ p = true → rel ≠ [] → σ !! (p ++ rel) = None.
Proof.
  intros Hwf [_ Hnone]%fresh_target_spec Hrel.
  destruct rel as [|n rel]; [done|].
  destruct (σ !! (p ++ n :: rel)) as [x|] eqn:E; [|done]. exfalso.
  destruct (decide (rel = [])) as [->|Hne]; [by rewrite Hnone in E|].
  assert (σ !! (p ++ [n]) = Some Dir) as Hd.
  { apply (wf_above σ (p ++ [n]) rel); [done..|].
    rewrite <- app_assoc. simpl. by rewrite E. }
  by rewrite Hnone in Hd.
Qed.

(** A regular file is neither the fresh target, nor above it, nor below. *)
Lemma fresh_target_file_apart (σ : fs) (p s : path) (data : string) :
  fs_wf σ → fresh_target σ p = true → σ !! s = Some (File data) →
  ¬ s `prefix_of` p ∧ ∀ rel, s ≠ p ++ rel.
Proof.
  intros Hwf Hfresh Hs. split.
  - intros Hpre. apply fresh_target_spec in Hfresh as [Hc _].
    rewrite creatable_spec in Hc. specialize (Hc s Hpre).
    rewrite isfile_false in Hc. by eapply Hc.
  - intros rel ->. destruct (decide (rel = [])) as [->|Hne].
    + rewrite app_nil_r in Hs. apply fresh_target_spec in Hfresh as [Hc _].
      rewrite creatable_spec in Hc. specialize (Hc p (reflexivity _)).
      rewrite isfile_false in Hc. by eapply Hc.
    + by rewrite fresh_target_below in Hs.
Qed.

Section WithEnvironment.

Variable refused : path → option OSError.
Variable resolve : string → option path.
Variable pkg_dir : path.

(** [generate_project] is its preparation followed by the six steps. *)
Lemma generate_project_steps (full_path : path) (template : string)
    (mongodb_port http_port : option Z)
    (mongodb_user mongodb_pass server_api_key : option string) (σ : fs) :
  generate_project refused resolve pkg_dir full_path template mongodb_port
    http_port mongodb_user mongodb_pass server_api_key σ =
  (prepare refused full_path;;
   run_steps (artifact_steps refused resolve pkg_dir full_path template
                (default default_mongodb_port mongodb_port)
                (default default_http_port http_port)
                (default default_mongodb_user mongodb_user)
                (default default_mongodb_pass mongodb_pass)
                (default default_server_api_key server_api_key))) σ.
Proof.
  unfold generate_project, prepare, artifact_steps, run_steps. io_unfold.
  destruct (makedirs refused full_path true σ) as [σ1 [[]|e]]; [|done].
  destruct (listdir full_path σ1) as [σ2 [entries|e]]; [|done].
  destruct (decide (length entries ≠ 0)); [done|].
  destruct (makedirs refused (full_path ++ ["server"]) true σ2) as [σ3 [[]|e]]; [|done].
  repeat match goal with
         | |- context [let (_, _) := ?m ?s in _] =>
           lazymatch m with
           | context [let (_, _) := _ in _] => fail
           | _ => destruct (m s) as [? [[]|?]]; [|done]
           end
         end.
  all: try done.
Qed.

Lemma prepare_fresh (full_path : path) (σ : fs) :
  fs_wf σ → fresh_target σ full_path = true → (∀ q, refused q = None) →
  ∃ σ' : fs, prepare refused full_path σ = (σ', Ok tt) ∧ prepared full_path σ σ'.
Proof.
  intros Hwf Hfresh Hr.
  pose proof Hfresh as [Hc Hnone]%fresh_target_spec.
  destruct (makedirs_creates refused σ full_path Hwf Hc Hr) as (σ1 & E1 & Hwf1 & Hσ1).
  assert (σ1 !! full_path = Some Dir) as Hfull.
  { rewrite Hσ1. by rewrite decide_True. }
  assert (∀ n : string, σ1 !! (full_path ++ [n]) = None) as Hnone1.
  { intros n. rewrite Hσ1, decide_False; [done|]. apply prefix_snoc_not. }
  assert (creatable σ1 (full_path ++ ["server"]) = true) as Hc1.
  { apply creatable_spec. intros q Hq. apply isfile_false. intros c.
    apply prefix_snoc in Hq as [Hq| ->]; [|by rewrite Hnone1].
    rewrite Hσ1, decide_True; done. }
  destruct (makedirs_creates refused σ1 (full_path ++ ["server"]) Hwf1 Hc1 Hr)
    as (σ2 & E2 & Hwf2 & Hσ2).
  exists σ2. split.
  - unfold prepare. io_unfold. rewrite E1, (listdir_dir σ1 full_path Hfull).
    apply children_nil in Hnone1. rewrite Hnone1. simpl. by rewrite E2.
  - split; [done|]. intros q. rewrite Hσ2, Hσ1.
    repeat case_decide; try done. exfalso.
    rename select (¬ _) into Hn. apply Hn. by apply prefix_app_r.
Qed.

Lemma prepared_below (full_path rel : path) (σ σ' : fs) :
  fs_wf σ → fresh_target σ full_path = true → prepared full_path σ σ' →
  rel ≠ [] → rel ≠ ["server"] → σ' !! (full_path ++ rel) = None.
Proof.
  intros Hwf Hfresh [_ Hσ'] Hne Hns. rewrite Hσ'.
  rewrite decide_False; [by apply fresh_target_below|].
  intros Hpre. apply prefix_app_inv in Hpre.
  destruct rel as [|n rel]; [done|].
  pose proof (prefix_cons_inv_1 _ _ _ _ Hpre) as ->.
  apply prefix_cons_inv_2, prefix_nil_inv in Hpre as ->. done.
Qed.

Lemma prepared_dirs (full_path : path) (σ σ' : fs) :
  prepared full_path σ σ' →
  σ' !! full_path = Some Dir ∧ σ' !! (full_path ++ ["server"]) = Some Dir.
Proof.
  intros [_ Hσ']. rewrite !Hσ'. rewrite !decide_True; [done|done|].
  by apply prefix_app_r.
Qed.

Lemma prepared_file (full_path s : path) (data : string) (σ σ' : fs) :
  fs_wf σ → fresh_target σ full_path = true → prepared full_path σ σ' →
  σ !! s = Some (File data) → σ' !! s = Some (File data).
Proof.
  intros Hwf Hfresh [_ Hσ'] Hs. rewrite Hσ'.
  destruct (fresh_target_file_apart σ full_path s data Hwf Hfresh Hs) as [Hnp Hnb].
  rewrite decide_False; [done|].
  intros [Hp| ->]%prefix_snoc; [done|]. by eapply Hnb.
Qed.

Lemma write_file_below (σ : fs) (p : path) (d n data : string) :
  σ !! (p ++ [d]) = Some Dir → σ !! (p ++ [d; n]) ≠ Some Dir →
  refused (p ++ [d; n]) = None →
  write_file refused (p ++ [d; n]) data σ = (<[p ++ [d; n] := File data]> σ, Ok tt).
Proof.
  intros Hd Hn Hr.
  replace (p ++ [d; n]) with ((p ++ [d]) ++ [n]) in * by by rewrite <- app_assoc.
  by apply write_file_ok.
Qed.

(** On a fresh target the five composed files are written one after the
    other, and the run ends the way the copy of the template ends. *)
Lemma generate_project_fresh (full_path : path) (template : string)
    (mongodb_port http_port : option Z)
    (mongodb_user mongodb_pass server_api_key : option string) (σ : fs) :
  fs_wf σ → fresh_target σ full_path = true → (∀ q, refused q = None) →
  ∃ σ' : fs,
    prepared full_path σ σ' ∧
    generate_project refused resolve pkg_dir full_path template mongodb_port
      http_port mongodb_user mongodb_pass server_api_key σ =
    _make_app_file refused resolve pkg_dir full_path template
      (composed full_path
         (docker_compose_contents (default default_mongodb_port mongodb_port)
            (default default_http_port http_port))
         (env_contents (default default_mongodb_port mongodb_port)
            (default default_mongodb_user mongodb_user)
            (default default_mongodb_pass mongodb_pass)
            (default default_server_api_key server_api_key))
         σ').
Proof.
  intros Hwf Hfresh Hr.
  destruct (prepare_fresh full_path σ Hwf Hfresh Hr) as (σ' & Eprep & Hprep).
  exists σ'. split; [done|].
  pose proof (prepared_dirs _ _ _ Hprep) as [Hfull Hserver].
  assert (∀ rel, rel ≠ [] → rel ≠ ["server"] → σ' !! (full_path ++ rel) = None)
    as Hbelow by (intros; by eapply prepared_below).
  revert Eprep. unfold generate_project, prepare. io_unfold.
  destruct (makedirs refused full_path true σ) as [σ1 [[]|e]]; [|done].
  destruct (listdir full_path σ1) as [σ2 [entries|e]]; [|done].
  destruct (decide (length entries ≠ 0)); [done|].
  intros ->.
  unfold _make_docker_compose_file, _make_env_file, _make_dockerfile,
    _make_requirements_file, _make_init_file, composed. simpl default.
  rewrite (write_file_ok refused σ' full_path "docker-compose.yml");
    [|done|by rewrite Hbelow|done].
  rewrite (write_file_ok refused _ full_path ".env"); [|..|done]; cycle 1.
  { rewrite lookup_insert_ne by path_ne. done. }
  { rewrite lookup_insert_ne by path_ne. by rewrite Hbelow. }
  rewrite (write_file_below _ full_path "server" "Dockerfile"); [|..|done]; cycle 1.
  { rewrite !lookup_insert_ne by path_ne. done. }
  { rewrite !lookup_insert_ne by path_ne. by rewrite Hbelow. }
  rewrite (write_file_below _ full_path "server" "requirements.txt"); [|..|done]; cycle 1.
  { rewrite !lookup_insert_ne by path_ne. done. }
  { rewrite !lookup_insert_ne by path_ne. by rewrite Hbelow. }
  rewrite (write_file_below _ full_path "server" "__init__.py"); [|..|done]; cycle 1.
  { rewrite !lookup_insert_ne by path_ne. done. }
  { rewrite !lookup_insert_ne by path_ne. by rewrite Hbelow. }
  done.
Qed.

(** What the five composed files leave at each path. *)
Lemma composed_lookup (full_path q : path) (compose env : string) (σ : fs) :
  composed full_path compose env σ !! q =
  if decide (q = full_path ++ ["server"; "__init__.py"]) then Some (File "")
  else if decide (q = full_path ++ ["server"; "requirements.txt"])
  then Some (File requirements_contents)
  else if decide (q = full_path ++ ["server"; "Dockerfile"])
  then Some (File dockerfile_contents)
  else if decide (q = full_path ++ [".env"]) then Some (File env)
  else if decide (q = full_path ++ ["docker-compose.yml"])
  then Some (File compose)
  else σ !! q.
Proof.
  unfold composed. rewrite !lookup_insert.
  repeat case_decide; congruence.
Qed.

Lemma composed_lookup_compose (full_path : path) (compose env : string) (σ : fs) :
  composed full_path compose env σ !! (full_path ++ ["docker-compose.yml"]) =
  Some (File compose).
Proof.
  rewrite composed_lookup. rewrite !decide_False by path_ne. by rewrite decide_True.
Qed.

Lemma composed_lookup_env (full_path : path) (compose env : string) (σ : fs) :
  composed full_path compose env σ !! (full_path ++ [".env"]) = Some (File env).
Proof.
  rewrite composed_lookup. rewrite !decide_False by path_ne. by rewrite decide_True.
Qed.

(** A run on a fresh target: either the copy of the template raises, and
    the five composed files are what the run leaves, or it succeeds and
    [server/app.py] holds the bytes of the template's source. *)
Lemma generate_project_fresh_cases (full_path : path) (template : string)
    (mongodb_port http_port : option Z)
    (mongodb_user mongodb_pass server_api_key : option string) (σ : fs) :
  fs_wf σ → fresh_target σ full_path = true → (∀ q, refused q = None) →
  ∃ σ1 : fs,
    prepared full_path σ σ1 ∧
    let σ5 :=
      composed full_path
        (docker_compose_contents (default default_mongodb_port mongodb_port)
           (default default_http_port http_port))
        (env_contents (default default_mongodb_port mongodb_port)
           (default default_mongodb_user mongodb_user)
           (default default_mongodb_pass mongodb_pass)
           (default default_server_api_key server_api_key))
        σ1 in
    (∃ e,
       generate_project refused resolve pkg_dir full_path template mongodb_port
         http_port mongodb_user mongodb_pass server_api_key σ = (σ5, Raise e)) ∨
    (∃ src data,
       template_source resolve pkg_dir template = Some src ∧
       σ5 !! src = Some (File data) ∧
       generate_project refused resolve pkg_dir full_path template mongodb_port
         http_port mongodb_user mongodb_pass server_api_key σ =
       (<[full_path ++ ["server"; "app.py"] := File data]> σ5, Ok tt)).
Proof.
  intros Hwf Hfresh Hr.
  destruct (generate_project_fresh full_path template mongodb_port http_port
              mongodb_user mongodb_pass server_api_key σ Hwf Hfresh Hr)
    as (σ1 & Hprep & ->).
  exists σ1. split; [done|]. intros σ5.
  unfold _make_app_file. fold σ5.
  destruct (shutil_copy refused (template_source resolve pkg_dir template)
              (full_path ++ ["server"; "app.py"]) σ5) as [σ6 r] eqn:Ecopy.
  apply shutil_copy_cases in Ecopy as [[-> (s & data & Es & Hs & ->)]|(e & -> & ->)].
  - right. exists s, data. split; [done|]. split; [done|].
    assert (isdir σ5 (full_path ++ ["server"; "app.py"]) = false) as ->; [|done].
    unfold isdir, σ5. rewrite composed_lookup. rewrite !decide_False by path_ne.
    by rewrite (prepared_below full_path ["server"; "app.py"] σ σ1).
  - left. by exists e.
Qed.

End WithEnvironment.

End RunFacts.

(** ** The generated texts, line by line *)

Module TextFacts.
Import Project Reader ReaderFacts.

Lemma append_assoc (a b c : string) : (a +:+ b) +:+ c = a +:+ (b +:+ c).
Proof.
  induction a as [|x a IH]; [done|].
  change ((String x a +:+ b) +:+ c) with (String x ((a +:+ b) +:+ c)).
  by rewrite IH.
Qed.

Lemma single_line_literal (lit s : string) :
  single_line lit = true → single_line s = true → single_line (lit +:+ s) = true.
Proof. unfold single_line. intros Hl Hs. by rewrite no_char_app, Hl, Hs. Qed.

Lemma env_contents_lines (mongodb_port : Z)
    (mongodb_user mongodb_pass server_api_key : string) :
  single_line mongodb_user = true → single_line mongodb_pass = true →
  single_line server_api_key = true →
  lines (env_contents mongodb_port mongodb_user mongodb_pass server_api_key) =
  [ "MONGO_INITDB_ROOT_USERNAME=" +:+ mongodb_user;
    "MONGO_INITDB_ROOT_PASSWORD=" +:+ mongodb_pass;
    "DB_HOST=mongodb";
    "DB_PORT=" +:+ str mongodb_port;
    "DB_USER=" +:+ mongodb_user;
    "DB_PASS=" +:+ mongodb_pass;
    "SERVER_API_KEY=" +:+ server_api_key;
    "WAITRESS_PORT=8080"; "MODULE_NAME=app"; "VARIABLE_NAME=app"; "" ].
Proof.
  intros Hu Hp Hk.
  pose proof (str_single_line mongodb_port) as Hn.
  change (env_contents mongodb_port mongodb_user mongodb_pass server_api_key)
    with (unlines
            [ "MONGO_INITDB_ROOT_USERNAME=" +:+ mongodb_user;
              "MONGO_INITDB_ROOT_PASSWORD=" +:+ mongodb_pass;
              "DB_HOST=mongodb";
              "DB_PORT=" +:+ str mongodb_port;
              "DB_USER=" +:+ mongodb_user;
              "DB_PASS=" +:+ mongodb_pass;
              "SERVER_API_KEY=" +:+ server_api_key;
              "WAITRESS_PORT=8080"; "MODULE_NAME=app"; "VARIABLE_NAME=app" ]).
  rewrite lines_unlines; [done|].
  cbn [forallb].
  rewrite !single_line_literal by done. done.
Qed.

Lemma docker_compose_contents_lines (mongodb_port http_port : Z) :
  lines (docker_compose_contents mongodb_port http_port) =
  [ "version: '3.7'"; "services:"; "  mongodb:"; "    image: mongo:6.0";
    "    env_file: .env"; "    ports:";
    "      - " +:+ str mongodb_port +:+ ":27017";
    "    expose:";
    "      - " +:+ str mongodb_port;
    "    volumes:"; "      - .tmp/mongo:/data/db"; "  http:"; "    build:";
    "      context: ./server"; "    env_file: .env"; "    ports:";
    "      - " +:+ str http_port +:+ ":8080";
    "    expose:";
    "      - " +:+ str http_port;
    "" ].
Proof.
  pose proof (str_single_line mongodb_port) as Hm.
  pose proof (str_single_line http_port) as Hh.
  assert (docker_compose_contents mongodb_port http_port =
          unlines
            [ "version: '3.7'"; "services:"; "  mongodb:"; "    image: mongo:6.0";
              "    env_file: .env"; "    ports:";
              "      - " +:+ str mongodb_port +:+ ":27017";
              "    expose:";
              "      - " +:+ str mongodb_port;
              "    volumes:"; "      - .tmp/mongo:/data/db"; "  http:"; "    build:";
              "      context: ./server"; "    env_file: .env"; "    ports:";
              "      - " +:+ str http_port +:+ ":8080";
              "    expose:";
              "      - " +:+ str http_port ]) as ->.
  { unfold unlines, docker_compose_contents. cbn [foldr].
    rewrite !append_assoc. reflexivity. }
  rewrite lines_unlines; [done|].
  cbn [forallb]. unfold single_line in *.
  rewrite !no_char_app, Hm, Hh. reflexivity.
Qed.

Lemma env_contents_assignments (mongodb_port : Z)
    (mongodb_user mongodb_pass server_api_key : string) :
  single_line mongodb_user = true → single_line mongodb_pass = true →
  single_line server_api_key = true →
  env_assignments
    (env_contents mongodb_port mongodb_user mongodb_pass server_api_key) =
  [ ("MONGO_INITDB_ROOT_USERNAME", mongodb_user);
    ("MONGO_INITDB_ROOT_PASSWORD", mongodb_pass);
    ("DB_HOST", "mongodb");
    ("DB_PORT", str mongodb_port);
    ("DB_USER", mongodb_user);
    ("DB_PASS", mongodb_pass);
    ("SERVER_API_KEY", server_api_key);
    ("WAITRESS_PORT", "8080"); ("MODULE_NAME", "app");
    ("VARIABLE_NAME", "app") ].
Proof.
  intros Hu Hp Hk. unfold env_assignments.
  rewrite env_contents_lines by done. reflexivity.
Qed.

Lemma env_contents_carries (mongodb_port : Z)
    (mongodb_user mongodb_pass server_api_key : string) :
  single_line mongodb_user = true → single_line mongodb_pass = true →
  single_line server_api_key = true →
  env_carries
    (env_contents mongodb_port mongodb_user mongodb_pass server_api_key)
    mongodb_port mongodb_user mongodb_pass server_api_key.
Proof.
  intros Hu Hp Hk. unfold env_carries, env_value, env_values.
  rewrite env_contents_assignments by done. repeat split; reflexivity.
Qed.

Lemma env_contents_blank (mongodb_port : Z)
    (mongodb_user mongodb_pass server_api_key : string) :
  single_line mongodb_user = true → single_line mongodb_pass = true →
  single_line server_api_key = true →
  env_blank (env_contents mongodb_port mongodb_user mongodb_pass server_api_key) =
  [ "MONGO_INITDB_ROOT_USERNAME="; "MONGO_INITDB_ROOT_PASSWORD=";
    "DB_HOST=mongodb"; "DB_PORT="; "DB_USER="; "DB_PASS="; "SERVER_API_KEY=";
    "WAITRESS_PORT=8080"; "MODULE_NAME=app"; "VARIABLE_NAME=app"; "" ].
Proof.
  intros Hu Hp Hk. unfold env_blank.
  rewrite env_contents_lines by done. reflexivity.
Qed.

Lemma docker_compose_contents_carries (mongodb_port http_port : Z) :
  compose_carries (docker_compose_contents mongodb_port http_port)
    mongodb_port http_port.
Proof.
  unfold compose_carries, service_items.
  rewrite docker_compose_contents_lines. repeat split; reflexivity.
Qed.

Lemma blank_published_port (n : Z) (container : string) :
  blank_published (str n +:+ String ":" container) = "      - :" +:+ container.
Proof.
  unfold blank_published. rewrite cut_app; [done|]. by apply str_no_char.
Qed.

Lemma docker_compose_contents_blank (mongodb_port http_port : Z) :
  compose_blank (docker_compose_contents mongodb_port http_port) =
  [ "version: '3.7'"; "services:"; "  mongodb:"; "    image: mongo:6.0";
    "    env_file: .env"; "    ports:"; "      - :27017"; "    expose:";
    "      - "; "    volumes:"; "      - .tmp/mongo:/data/db"; "  http:";
    "    build:"; "      context: ./server"; "    env_file: .env";
    "    ports:"; "      - :8080"; "    expose:"; "      - "; "" ].
Proof.
  unfold compose_blank. rewrite docker_compose_contents_lines.
  transitivity
    [ "version: '3.7'"; "services:"; "  mongodb:"; "    image: mongo:6.0";
      "    env_file: .env"; "    ports:";
      blank_published (str mongodb_port +:+ String ":" "27017");
      "    expose:";
      "      - "; "    volumes:"; "      - .tmp/mongo:/data/db"; "  http:";
      "    build:"; "      context: ./server"; "    env_file: .env";
      "    ports:";
      blank_published (str http_port +:+ String ":" "8080");
      "    expose:"; "      - "; "" ]; [reflexivity|].
  by rewrite !blank_published_port.
Qed.

End TextFacts.

(** ** Lemmas behind the properties *)

Module Support.
Import OS OSFacts PrimFacts Project Layout RunFacts Reader ReaderFacts
  TextFacts Tactics.

Lemma project_tree_other (compose env app : string) (rel : path) :
  rel ≠ ["docker-compose.yml"] → rel ≠ [".env"] → rel ≠ ["server"] →
  rel ≠ ["server"; "Dockerfile"] → rel ≠ ["server"; "requirements.txt"] →
  rel ≠ ["server"; "__init__.py"] → rel ≠ ["server"; "app.py"] →
  project_tree compose env app !! rel = None.
Proof.
  intros. unfold project_tree. simpl.
  rewrite !lookup_insert_ne by done. apply lookup_empty.
Qed.

(** After a run on a fresh target the orchestration and environment
    files are there with the composed texts, however the copy of the
    template ends. *)
Lemma fresh_run_texts
    (refused : path → option OSError) (resolve : string → option path)
    (pkg_dir full_path : path) (template : string)
    (mongodb_port http_port : option Z)
    (mongodb_user mongodb_pass server_api_key : option string) (σ : fs) :
  fs_wf σ → fresh_target σ full_path = true → (∀ q, refused q = None) →
  let run :=
    generate_project refused resolve pkg_dir full_path template mongodb_port
      http_port mongodb_user mongodb_pass server_api_key σ in
  run.1 !! (full_path ++ ["docker-compose.yml"]) =
    Some (File (docker_compose_contents
                  (default default_mongodb_port mongodb_port)
                  (default default_http_port http_port))) ∧
  run.1 !! (full_path ++ [".env"]) =
    Some (File (env_contents (default default_mongodb_port mongodb_port)
                  (default default_mongodb_user mongodb_user)
                  (default default_mongodb_pass mongodb_pass)
                  (default default_server_api_key server_api_key))).
Proof.
  intros Hwf Hfresh Hr run.
  destruct (generate_project_fresh_cases refused resolve pkg_dir full_path
              template mongodb_port http_port mongodb_user mongodb_pass
              server_api_key σ Hwf Hfresh Hr)
    as (σ1 & _ & [(e & E)|(src & data & _ & _ & E)]);
    unfold run; rewrite E; simpl fst.
  - by rewrite composed_lookup_compose, composed_lookup_env.
  - rewrite !lookup_insert_ne by path_ne.
    by rewrite composed_lookup_compose, composed_lookup_env.
Qed.

(** A selector other than the two built-in ones is read as a path. *)
Lemma template_source_literal
    (resolve : string → option path) (pkg_dir : path) (template : string) :
  template ≠ "default:simple" → template ≠ "default:multiple" →
  template_source resolve pkg_dir template = resolve template.
Proof. intros H1 H2. unfold template_source. by rewrite !decide_False. Qed.

(** When nothing lies at the source of the template, and the run does
    not put a directory there, the copy raises [FileNotFoundError]. *)
Lemma missing_source_raises
    (refused : path → option OSError) (resolve : string → option path)
    (pkg_dir full_path : path) (template : string)
    (mongodb_port http_port : option Z)
    (mongodb_user mongodb_pass server_api_key : option string) (σ : fs) :
  fs_wf σ → fresh_target σ full_path = true → (∀ q, refused q = None) →
  (∀ src, template_source resolve pkg_dir template = Some src →
          σ !! src = None ∧ ∀ rel, src ≠ full_path ++ rel) →
  (∀ src, template_source resolve pkg_dir template = Some src →
          ¬ src `prefix_of` full_path) →
  (generate_project refused resolve pkg_dir full_path template mongodb_port
     http_port mongodb_user mongodb_pass server_api_key σ).2 =
  Raise FileNotFoundError.
Proof.
  intros Hwf Hfresh Hr Hmiss Hnp.
  destruct (generate_project_fresh refused resolve pkg_dir full_path template
              mongodb_port http_port mongodb_user mongodb_pass server_api_key
              σ Hwf Hfresh Hr) as (σ1 & [_ Hσ1] & ->).
  unfold _make_app_file. rewrite shutil_copy_missing; [done|].
  intros src Hsrc. destruct (Hmiss src Hsrc) as [Hnone Hapart].
  rewrite composed_lookup. rewrite !decide_False by apply Hapart.
  rewrite Hσ1, decide_False; [done|].
  intros [Hp| ->]%prefix_snoc; [by eapply Hnp|by eapply Hapart].
Qed.

(** A block of statements stops at the first one that raises, with the
    filesystem that statement leaves. *)
Lemma run_steps_fails_at (steps : list (io unit)) (n : nat) (s : io unit)
    (σ0 : fs) (e : OSError) :
  (run_steps (take n steps) σ0).2 = Ok tt →
  steps !! n = Some s →
  (s (run_steps (take n steps) σ0).1).2 = Raise e →
  run_steps steps σ0 = ((s (run_steps (take n steps) σ0).1).1, Raise e).
Proof.
  revert steps σ0. induction n as [|n IH]; intros steps σ0 Hpre Hs Hfail.
  - destruct steps as [|s' steps]; [done|]. simpl in *. injection Hs as ->.
    io_unfold. destruct (s σ0) as [σ1 [[]|e']]; simpl in *; congruence.
  - destruct steps as [|s' steps]; [done|]. simpl in *. io_unfold.
    destruct (s' σ0) as [σ1 [[]|e']]; simpl in *; [|done].
    by apply IH.
Qed.

(** A step of the generator that raises leaves the filesystem as it
    found it. *)
Lemma artifact_step_raises_unchanged
    (refused : path → option OSError) (resolve : string → option path)
    (pkg_dir full_path : path) (template : string) (mongodb_port http_port : Z)
    (mongodb_user mongodb_pass server_api_key : string)
    (s : io unit) (σ : fs) (e : OSError) :
  s ∈ artifact_steps refused resolve pkg_dir full_path template mongodb_port
        http_port mongodb_user mongodb_pass server_api_key →
  (s σ).2 = Raise e → (s σ).1 = σ.
Proof.
  unfold artifact_steps. rewrite !elem_of_cons, elem_of_nil.
  intros Hs Hfail.
  destruct (s σ) as [σ' r] eqn:E. simpl in *. subst r.
  destruct Hs as [->|[->|[->|[->|[->|[->|[]]]]]]];
    unfold _make_docker_compose_file, _make_env_file, _make_dockerfile,
      _make_requirements_file, _make_init_file, _make_app_file in E;
    first [ apply write_file_cases in E as [[? _]|(? & _ & ->)]; done
          | apply shutil_copy_cases in E as [[? _]|(? & _ & ->)]; done ].
Qed.

(** The first [n] steps, when none of them raises, leave what they
    wrote. *)
Lemma artifact_steps_written
    (refused : path → option OSError) (resolve : string → option path)
    (pkg_dir full_path : path) (template : string) (mongodb_port http_port : Z)
    (mongodb_user mongodb_pass server_api_key : string)
    (n : nat) (σ0 : fs) :
  let steps :=
    artifact_steps refused resolve pkg_dir full_path template mongodb_port
      http_port mongodb_user mongodb_pass server_api_key in
  let outputs :=
    artifact_outputs full_path mongodb_port http_port mongodb_user
      mongodb_pass server_api_key in
  (run_steps (take n steps) σ0).2 = Ok tt →
  ∀ i out, i < n → outputs !! i = Some out →
           (run_steps (take n steps) σ0).1 !! out.1 = Some (File out.2).
Proof.
  intros steps outputs Hok i out Hi Hout.
  assert (i < 5) as Hi5.
  { apply lookup_lt_Some in Hout. simpl in Hout. lia. }
  revert Hok. unfold steps, artifact_steps.
  unfold _make_docker_compose_file, _make_env_file, _make_dockerfile,
    _make_requirements_file, _make_init_file, _make_app_file. simpl default.
  destruct n as [|[|[|[|[|[|n]]]]]]; [lia|..]; simpl take; rewrite ?take_nil;
    unfold run_steps; io_unfold;
    repeat match goal with
           | |- context [write_file refused ?p ?d ?σ] =>
             let E := fresh "E" in
             destruct (write_file refused p d σ) as [? [[]|?]] eqn:E;
             [apply write_file_cases in E as [[_ ->]|(? & ? & _)]; [|done]
             |simpl; intros; done]
           end.
  all: try (destruct (shutil_copy _ _ _ _) as [? [[]|?]] eqn:Ecopy;
            [apply shutil_copy_cases in Ecopy
               as [[_ (src & data & _ & _ & ->)]|(? & ? & _)]; [|done]
            |simpl; intros; done]).
  all: intros _; simpl fst.
  all: destruct i as [|[|[|[|[|i]]]]]; try lia.
  all: simpl in Hout; injection Hout as <-; simpl.
  all: repeat match goal with
              | |- context [if isdir ?a ?b then _ else _] => destruct (isdir a b)
              end.
  all: rewrite ?lookup_insert_ne by path_ne; apply lookup_insert_eq.
Qed.

(** A write that goes through goes through again, and changes nothing
    the second time. *)
Lemma write_file_again (refused : path → option OSError) (σ σ' : fs)
    (p : path) (data : string) :
  write_file refused p data σ = (σ', Ok tt) →
  σ' !! p = Some (File data) ∧ write_file refused p data σ' = (σ', Ok tt).
Proof.
  unfold write_file. intros H.
  destruct (parent p) as [q|] eqn:Eq; [|by destruct (σ !! p) as [[]|]].
  assert (q ≠ p) as Hqp.
  { apply parent_Some in Eq as [n ->]. intros E%(f_equal length).
    rewrite length_app in E. simpl in E. lia. }
  destruct (σ !! q) as [[c|]|] eqn:Eqq; [by destruct (σ !! p) as [[]|]| |
                                         by destruct (σ !! p) as [[]|]].
  destruct (refused p) eqn:Er; [by destruct (σ !! p) as [[]|]|].
  assert (σ' = <[p := File data]> σ) as ->
    by (destruct (σ !! p) as [[]|]; congruence).
  rewrite lookup_insert_eq. split; [done|].
  rewrite lookup_insert_ne by done. rewrite Eqq. by rewrite insert_insert_eq.
Qed.

End Support.

(** ** The properties of the specification *)

Module Claims.
Import OS OSFacts PrimFacts Project Layout RunFacts Reader ReaderFacts
  TextFacts Tactics Support.

(** C1, amended. On a fresh target (absent, or a directory
    without entries) of a well-formed filesystem in which no write is
    refused, with a selector whose source is an existing regular file,
    [generate_project] returns, and below the target lie exactly the six
    artifacts at their paths, in the directory [server] for four of them.
    The four composed texts are not empty, [server/__init__.py] is empty,
    and [server/app.py] holds the bytes of the template's source, so that
    it is empty exactly when that file is. *)
Theorem fresh_run_layout
    (refused : path → option OSError) (resolve : string → option path)
    (pkg_dir full_path : path) (template : string)
    (mongodb_port http_port : option Z)
    (mongodb_user mongodb_pass server_api_key : option string)
    (σ : fs) (src : path) (data : string) :
  well_formed σ = true →
  fresh_target σ full_path = true →
  (∀ q, refused q = None) →
  template_source resolve pkg_dir template = Some src →
  σ !! src = Some (File data) →
  let compose :=
    docker_compose_contents (default default_mongodb_port mongodb_port)
      (default default_http_port http_port) in
  let env :=
    env_contents (default default_mongodb_port mongodb_port)
      (default default_mongodb_user mongodb_user)
      (default default_mongodb_pass mongodb_pass)
      (default default_server_api_key server_api_key) in
  ∃ σ' : fs,
    generate_project refused resolve pkg_dir full_path template mongodb_port
      http_port mongodb_user mongodb_pass server_api_key σ = (σ', Ok tt) ∧
    σ' !! full_path = Some Dir ∧
    (∀ rel, rel ≠ [] →
            σ' !! (full_path ++ rel) = project_tree compose env data !! rel) ∧
    compose ≠ "" ∧ env ≠ "" ∧
    dockerfile_contents ≠ "" ∧ requirements_contents ≠ "".
Proof.
  intros Hwf%well_formed_wf Hfresh Hr Hsrc Hdata compose env.
  destruct (generate_project_fresh refused resolve pkg_dir full_path template
              mongodb_port http_port mongodb_user mongodb_pass server_api_key
              σ Hwf Hfresh Hr) as (σ1 & Hprep & ->).
  fold compose env.
  pose proof (prepared_dirs _ _ _ Hprep) as [Hfull Hserver].
  destruct (fresh_target_file_apart σ full_path src data Hwf Hfresh Hdata)
    as [_ Hapart].
  assert (∀ rel, rel ≠ [] → rel ≠ ["server"] → σ1 !! (full_path ++ rel) = None)
    as Hbelow by (intros; by eapply prepared_below).
  unfold _make_app_file. rewrite Hsrc.
  replace (full_path ++ ["server"; "app.py"])
    with ((full_path ++ ["server"]) ++ ["app.py"]) by by rewrite <- app_assoc.
  rewrite (shutil_copy_ok refused _ src (full_path ++ ["server"]) "app.py" data);
    [| |  | |done].
  - eexists. split; [done|]. split; [|split; [|done]].
    + rewrite lookup_insert_ne by path_ne. rewrite composed_lookup.
      by rewrite !decide_False by path_ne.
    + intros rel Hrel. rewrite <- app_assoc. simpl.
      rewrite lookup_insert. case_decide as E.
      { apply app_inv_head in E as <-. reflexivity. }
      rewrite composed_lookup.
      repeat (case_decide;
              [match goal with
               | E' : full_path ++ rel = _ |- _ =>
                 apply app_inv_head in E' as ->; reflexivity
               end|]).
      destruct (decide (rel = ["server"])) as [->|Hns]; [by rewrite Hserver|].
      rewrite Hbelow by done. symmetry. apply project_tree_other; congruence.
  - rewrite composed_lookup. rewrite !decide_False by (intros ->; by eapply Hapart).
    by eapply prepared_file.
  - rewrite composed_lookup. rewrite !decide_False by path_ne. done.
  - rewrite <- app_assoc. simpl. rewrite composed_lookup.
    rewrite !decide_False by path_ne. by apply Hbelow.
Qed.

Lemma fresh_run_layout_witness :
  let σ := Demo.machine "# generator" "# template" in
  ∃ σ' : fs,
    generate_project Demo.nothing_refused Demo.resolve Demo.pkg_dir
      ["tmp"; "proj1"] "my_app.py" None None None None None σ = (σ', Ok tt) ∧
    σ' !! ["tmp"; "proj1"; "server"; "app.py"] = Some (File "app = None
").
Proof.
  intros σ.
  destruct (fresh_run_layout Demo.nothing_refused Demo.resolve Demo.pkg_dir
              ["tmp"; "proj1"] "my_app.py" None None None None None σ
              ["home"; "dev"; "my_app.py"] "app = None
")
    as (σ' & Hrun & _ & Htree & _); [reflexivity..|].
  exists σ'. split; [exact Hrun|].
  exact (Htree ["server"; "app.py"] ltac:(discriminate)).
Defined.

(** C1, counterexample: the selector names the regular file
    [blank.py], which is empty; the target is fresh, the run returns, and
    [server/app.py] is empty as well. *)
Lemma empty_template_gives_empty_app :
  let σ := Demo.machine "# generator" "# template" in
  let run :=
    generate_project Demo.nothing_refused Demo.resolve Demo.pkg_dir
      ["tmp"; "proj1"] "/home/dev/blank.py" None None None None None σ in
  well_formed σ = true ∧ fresh_target σ ["tmp"; "proj1"] = true ∧
  template_source Demo.resolve Demo.pkg_dir "/home/dev/blank.py" =
    Some ["home"; "dev"; "blank.py"] ∧
  σ !! ["home"; "dev"; "blank.py"] = Some (File "") ∧
  run.2 = Ok tt ∧
  run.1 !! ["tmp"; "proj1"; "server"; "app.py"] = Some (File "").
Proof. vm_compute. repeat split. Qed.

(** C2. A target directory that exists and holds an entry, whatever its
    name, makes [generate_project] raise [OSError("Directory not empty")],
    and the filesystem it leaves is the one it found: nothing below the
    target was created or changed, so the check came before any write. *)
Theorem nonempty_target_rejected
    (refused : path → option OSError) (resolve : string → option path)
    (pkg_dir full_path : path) (template : string)
    (mongodb_port http_port : option Z)
    (mongodb_user mongodb_pass server_api_key : option string)
    (σ : fs) (entry : string) (x : node) :
  well_formed σ = true →
  σ !! full_path = Some Dir →
  σ !! (full_path ++ [entry]) = Some x →
  generate_project refused resolve pkg_dir full_path template mongodb_port
    http_port mongodb_user mongodb_pass server_api_key σ =
  (σ, Raise (OSError_msg "Directory not empty")).
Proof.
  intros Hwf%well_formed_wf Hdir Hentry.
  unfold generate_project. io_unfold.
  rewrite (makedirs_existing_dir refused σ full_path Hwf Hdir).
  rewrite (listdir_dir σ full_path Hdir).
  destruct (children σ full_path) as [|n l] eqn:E; [|done].
  rewrite children_nil in E. by rewrite E in Hentry.
Qed.

Lemma nonempty_target_rejected_witness :
  let σ := Demo.machine "# generator" "# template" in
  σ !! ["home"; "dev"; "notes.txt"] = Some (File "to do") ∧
  generate_project Demo.nothing_refused Demo.resolve Demo.pkg_dir
    ["home"; "dev"] "my_app.py" None None None None None σ =
  (σ, Raise (OSError_msg "Directory not empty")).
Proof.
  intros σ. split; [reflexivity|].
  apply (nonempty_target_rejected Demo.nothing_refused Demo.resolve
           Demo.pkg_dir ["home"; "dev"] "my_app.py" None None None None None
           σ "notes.txt" (File "to do")); reflexivity.
Defined.

(** C3. The call of the scenario, on a fresh [/tmp/proj1]: the [.env] left
    behind has the lines [DB_PORT=27018], [DB_USER=u], [DB_PASS=p] and
    [SERVER_API_KEY=k1]; in the [docker-compose.yml] left behind the
    ports of service [mongodb] are [27018:27017] and those of service
    [http] are [9090:8080]. *)
Theorem scenario_proj1
    (refused : path → option OSError) (resolve : string → option path)
    (pkg_dir : path) (σ : fs) :
  well_formed σ = true →
  fresh_target σ ["tmp"; "proj1"] = true →
  (∀ q, refused q = None) →
  let run :=
    generate_project refused resolve pkg_dir ["tmp"; "proj1"] "default:simple"
      (Some 27018%Z) (Some 9090%Z) (Some "u") (Some "p") (Some "k1") σ in
  ∃ env compose : string,
    run.1 !! ["tmp"; "proj1"; ".env"] = Some (File env) ∧
    "DB_PORT=27018" ∈ lines env ∧ "DB_USER=u" ∈ lines env ∧
    "DB_PASS=p" ∈ lines env ∧ "SERVER_API_KEY=k1" ∈ lines env ∧
    run.1 !! ["tmp"; "proj1"; "docker-compose.yml"] = Some (File compose) ∧
    service_items "mongodb" "ports" compose = ["27018:27017"] ∧
    service_items "http" "ports" compose = ["9090:8080"].
Proof.
  intros Hwf%well_formed_wf Hfresh Hr run.
  destruct (fresh_run_texts refused resolve pkg_dir ["tmp"; "proj1"]
              "default:simple" (Some 27018%Z) (Some 9090%Z) (Some "u")
              (Some "p") (Some "k1") σ Hwf Hfresh Hr) as [Hcompose Henv].
  exists (env_contents 27018 "u" "p" "k1"), (docker_compose_contents 27018 9090).
  split; [exact Henv|].
  do 4 (split; [by_evaluation|]).
  split; [exact Hcompose|]. vm_compute. done.
Qed.

Lemma scenario_proj1_witness :
  let run :=
    generate_project Demo.nothing_refused Demo.resolve Demo.pkg_dir
      ["tmp"; "proj1"] "default:simple"
      (Some 27018%Z) (Some 9090%Z) (Some "u") (Some "p") (Some "k1")
      (Demo.machine "# generator" "# template") in
  ∃ env compose : string,
    run.1 !! ["tmp"; "proj1"; ".env"] = Some (File env) ∧
    "DB_PORT=27018" ∈ lines env ∧ "DB_USER=u" ∈ lines env ∧
    "DB_PASS=p" ∈ lines env ∧ "SERVER_API_KEY=k1" ∈ lines env ∧
    run.1 !! ["tmp"; "proj1"; "docker-compose.yml"] = Some (File compose) ∧
    service_items "mongodb" "ports" compose = ["27018:27017"] ∧
    service_items "http" "ports" compose = ["9090:8080"].
Proof.
  apply (scenario_proj1 Demo.nothing_refused Demo.resolve Demo.pkg_dir
           (Demo.machine "# generator" "# template")); reflexivity.
Defined.

(** C4, at the selector ["default:simple"], on a machine that holds the
    generator as the repository lays it out: the bundled template lies
    below [templates/], the selector is read as a file next to
    [project.py], nothing is there, and the run raises
    [FileNotFoundError] without writing [server/app.py]. *)
Theorem builtin_simple_not_found (project_py simple_template : string) :
  let σ := Demo.machine project_py simple_template in
  let run :=
    generate_project Demo.nothing_refused Demo.resolve Demo.pkg_dir
      ["tmp"; "proj1"] "default:simple" None None None None None σ in
  well_formed σ = true ∧ fresh_target σ ["tmp"; "proj1"] = true ∧
  σ !! (Demo.pkg_dir ++ ["templates"; "simple-application-template.py"]) =
    Some (File simple_template) ∧
  template_source Demo.resolve Demo.pkg_dir "default:simple" =
    Some (Demo.pkg_dir ++ ["simple-application-template.py"]) ∧
  σ !! (Demo.pkg_dir ++ ["simple-application-template.py"]) = None ∧
  run.2 = Raise FileNotFoundError ∧
  run.1 !! ["tmp"; "proj1"; "server"; "app.py"] = None.
Proof. vm_compute. repeat split. Qed.

(** C5, at the selector ["default:multiple"], on the same machine: the
    selector is read as [multichar-application-template.py] next to
    [project.py], the repository holds no file of that name, and the run
    raises [FileNotFoundError] without writing [server/app.py]. *)
Theorem builtin_multiple_not_found (project_py simple_template : string) :
  let σ := Demo.machine project_py simple_template in
  let run :=
    generate_project Demo.nothing_refused Demo.resolve Demo.pkg_dir
      ["tmp"; "proj1"] "default:multiple" None None None None None σ in
  well_formed σ = true ∧ fresh_target σ ["tmp"; "proj1"] = true ∧
  template_source Demo.resolve Demo.pkg_dir "default:multiple" =
    Some (Demo.pkg_dir ++ ["multichar-application-template.py"]) ∧
  Forall (λ e : path * node, basename e.1 ≠ "multichar-application-template.py")
    (Demo.repository_layout project_py simple_template) ∧
  run.2 = Raise FileNotFoundError ∧
  run.1 !! ["tmp"; "proj1"; "server"; "app.py"] = None.
Proof.
  intros σ run. split; [by vm_compute|]. split; [by vm_compute|].
  split; [by vm_compute|]. split; [|by vm_compute].
  unfold Demo.repository_layout. repeat constructor; by vm_compute.
Qed.

(** C6. A composer of the orchestration file, the environment file, the
    build file or the dependency manifest, called with the same
    parameters in two filesystems and two environments where it goes
    through, writes the same bytes in both; called again where it was
    just called, it goes through and leaves the same file. *)
Theorem composers_deterministic
    (refused refused' : path → option OSError) (c : composer)
    (project_path : path) (mongodb_port http_port : option Z)
    (mongodb_user mongodb_pass server_api_key : option string) (σ τ : fs) :
  let first :=
    run_composer refused c project_path mongodb_port http_port mongodb_user
      mongodb_pass server_api_key σ in
  let other :=
    run_composer refused' c project_path mongodb_port http_port mongodb_user
      mongodb_pass server_api_key τ in
  let again :=
    run_composer refused c project_path mongodb_port http_port mongodb_user
      mongodb_pass server_api_key first.1 in
  first.2 = Ok tt →
  other.2 = Ok tt →
  ∃ bytes : string,
    first.1 !! composer_path c project_path = Some (File bytes) ∧
    other.1 !! composer_path c project_path = Some (File bytes) ∧
    again = (first.1, Ok tt).
Proof.
  intros first other again Hfirst Hother. unfold again.
  destruct first as [σ' r] eqn:E1. destruct other as [τ' r'] eqn:E2.
  simpl in *. subst r r'.
  destruct c; simpl in *;
    unfold _make_docker_compose_file, _make_env_file, _make_dockerfile,
      _make_requirements_file in *;
    apply write_file_again in E1 as [H1 H1'];
    apply write_file_again in E2 as [H2 _];
    eexists; eauto.
Qed.

Lemma composers_deterministic_witness :
  let σ := <[["tmp"; "a"] := Dir]> Demo.base_fs in
  let τ := <[["tmp"; "a"] := Dir]> (Demo.machine "# generator" "# template") in
  let first :=
    run_composer Demo.nothing_refused Environment ["tmp"; "a"] (Some 5000%Z)
      None (Some "me") None None σ in
  let other :=
    run_composer Demo.requirements_refused Environment ["tmp"; "a"]
      (Some 5000%Z) None (Some "me") None None τ in
  ∃ bytes : string,
    first.1 !! ["tmp"; "a"; ".env"] = Some (File bytes) ∧
    other.1 !! ["tmp"; "a"; ".env"] = Some (File bytes) ∧
    run_composer Demo.nothing_refused Environment ["tmp"; "a"] (Some 5000%Z)
      None (Some "me") None None first.1 = (first.1, Ok tt).
Proof.
  intros σ τ first other.
  apply (composers_deterministic Demo.nothing_refused Demo.requirements_refused
           Environment ["tmp"; "a"] (Some 5000%Z) None (Some "me") None None
           σ τ); vm_compute; reflexivity.
Defined.

(** C7, amended. Two requests that differ only in the ports,
    the credentials and the key, none of the strings holding a line feed,
    run on the same fresh target: in the [.env] and the
    [docker-compose.yml] each run leaves, the fields read back as the
    values its request supplied, and with those fields blanked the files
    of the two runs are the same, line by line. *)
Theorem supplied_values_only
    (refused : path → option OSError) (resolve : string → option path)
    (pkg_dir full_path : path) (template : string) (σ : fs)
    (port1 http1 : Z) (user1 pass1 key1 : string)
    (port2 http2 : Z) (user2 pass2 key2 : string) :
  well_formed σ = true →
  fresh_target σ full_path = true →
  (∀ q, refused q = None) →
  single_line user1 = true → single_line pass1 = true →
  single_line key1 = true →
  single_line user2 = true → single_line pass2 = true →
  single_line key2 = true →
  let run1 :=
    generate_project refused resolve pkg_dir full_path template (Some port1)
      (Some http1) (Some user1) (Some pass1) (Some key1) σ in
  let run2 :=
    generate_project refused resolve pkg_dir full_path template (Some port2)
      (Some http2) (Some user2) (Some pass2) (Some key2) σ in
  ∃ env1 compose1 env2 compose2 : string,
    run1.1 !! (full_path ++ [".env"]) = Some (File env1) ∧
    run1.1 !! (full_path ++ ["docker-compose.yml"]) = Some (File compose1) ∧
    run2.1 !! (full_path ++ [".env"]) = Some (File env2) ∧
    run2.1 !! (full_path ++ ["docker-compose.yml"]) = Some (File compose2) ∧
    env_carries env1 port1 user1 pass1 key1 ∧
    compose_carries compose1 port1 http1 ∧
    env_carries env2 port2 user2 pass2 key2 ∧
    compose_carries compose2 port2 http2 ∧
    env_blank env1 = env_blank env2 ∧
    compose_blank compose1 = compose_blank compose2.
Proof.
  intros Hwf%well_formed_wf Hfresh Hr Hu1 Hp1 Hk1 Hu2 Hp2 Hk2 run1 run2.
  destruct (fresh_run_texts refused resolve pkg_dir full_path template
              (Some port1) (Some http1) (Some user1) (Some pass1) (Some key1)
              σ Hwf Hfresh Hr) as [Hc1 He1].
  destruct (fresh_run_texts refused resolve pkg_dir full_path template
              (Some port2) (Some http2) (Some user2) (Some pass2) (Some key2)
              σ Hwf Hfresh Hr) as [Hc2 He2].
  eexists _, _, _, _.
  split; [exact He1|]. split; [exact Hc1|].
  split; [exact He2|]. split; [exact Hc2|]. simpl default.
  split; [by apply env_contents_carries|].
  split; [apply docker_compose_contents_carries|].
  split; [by apply env_contents_carries|].
  split; [apply docker_compose_contents_carries|].
  split.
  - by rewrite !env_contents_blank.
  - by rewrite !docker_compose_contents_blank.
Qed.

Lemma supplied_values_only_witness :
  let σ := Demo.machine "# generator" "# template" in
  let run1 :=
    generate_project Demo.nothing_refused Demo.resolve Demo.pkg_dir
      ["tmp"; "proj1"] "my_app.py" (Some 27018%Z) (Some 9090%Z) (Some "u")
      (Some "p") (Some "k1") σ in
  let run2 :=
    generate_project Demo.nothing_refused Demo.resolve Demo.pkg_dir
      ["tmp"; "proj1"] "my_app.py" (Some 27017%Z) (Some 8080%Z) (Some "admin")
      (Some "p455w0rd") (Some "sample-abcdef") σ in
  ∃ env1 compose1 env2 compose2 : string,
    run1.1 !! ["tmp"; "proj1"; ".env"] = Some (File env1) ∧
    run1.1 !! ["tmp"; "proj1"; "docker-compose.yml"] = Some (File compose1) ∧
    run2.1 !! ["tmp"; "proj1"; ".env"] = Some (File env2) ∧
    run2.1 !! ["tmp"; "proj1"; "docker-compose.yml"] = Some (File compose2) ∧
    env_carries env1 27018 "u" "p" "k1" ∧
    compose_carries compose1 27018 9090 ∧
    env_carries env2 27017 "admin" "p455w0rd" "sample-abcdef" ∧
    compose_carries compose2 27017 8080 ∧
    env_blank env1 = env_blank env2 ∧
    compose_blank compose1 = compose_blank compose2.
Proof.
  apply (supplied_values_only Demo.nothing_refused Demo.resolve Demo.pkg_dir
           ["tmp"; "proj1"] "my_app.py"
           (Demo.machine "# generator" "# template")
           27018 9090 "u" "p" "k1" 27017 8080 "admin" "p455w0rd"
           "sample-abcdef"); reflexivity.
Defined.

(** C7, counterexample: the user name holds a line feed, and the [DB_USER]
    of the generated [.env] is not the name that was supplied, whether
    the first or the last assignment of the key is taken. *)
Lemma line_feed_in_user_changes_fields :
  let user := "a" +:+ String LF "DB_USER=b" in
  let run :=
    generate_project Demo.nothing_refused Demo.resolve Demo.pkg_dir
      ["tmp"; "proj1"] "my_app.py" (Some 27018%Z) (Some 9090%Z) (Some user)
      (Some "p") (Some "k1") (Demo.machine "# generator" "# template") in
  run.2 = Ok tt ∧
  run.1 !! ["tmp"; "proj1"; ".env"] =
    Some (File (env_contents 27018 user "p" "k1")) ∧
  env_values "DB_USER" (env_contents 27018 user "p" "k1") = ["b"; "a"; "b"] ∧
  env_value "DB_USER" (env_contents 27018 user "p" "k1") = Some "b" ∧
  Some "b" ≠ Some user.
Proof. vm_compute. repeat split. discriminate. Qed.

(** C8. No rollback: when the preparation and the first [n] of the six
    steps go through and the next step raises, [generate_project] raises
    that exception, and the filesystem it leaves is the one that step
    found: every artifact written by the first [n] steps is in place with
    the content it was written with.  With [n = 5] the step that raises is
    the copy of the template, and the five composed files stay. *)
Theorem no_rollback
    (refused : path → option OSError) (resolve : string → option path)
    (pkg_dir full_path : path) (template : string)
    (mongodb_port http_port : option Z)
    (mongodb_user mongodb_pass server_api_key : option string)
    (σ : fs) (n : nat) (s : io unit) (e : OSError) :
  let steps :=
    artifact_steps refused resolve pkg_dir full_path template
      (default default_mongodb_port mongodb_port)
      (default default_http_port http_port)
      (default default_mongodb_user mongodb_user)
      (default default_mongodb_pass mongodb_pass)
      (default default_server_api_key server_api_key) in
  let outputs :=
    artifact_outputs full_path
      (default default_mongodb_port mongodb_port)
      (default default_http_port http_port)
      (default default_mongodb_user mongodb_user)
      (default default_mongodb_pass mongodb_pass)
      (default default_server_api_key server_api_key) in
  let σ0 := (prepare refused full_path σ).1 in
  let σ1 := (run_steps (take n steps) σ0).1 in
  let run :=
    generate_project refused resolve pkg_dir full_path template mongodb_port
      http_port mongodb_user mongodb_pass server_api_key σ in
  (prepare refused full_path σ).2 = Ok tt →
  (run_steps (take n steps) σ0).2 = Ok tt →
  steps !! n = Some s →
  (s σ1).2 = Raise e →
  run.2 = Raise e ∧ run.1 = σ1 ∧
  ∀ i out, i < n → outputs !! i = Some out →
           run.1 !! out.1 = Some (File out.2).
Proof.
  intros steps outputs σ0 σ1 run Hprep Hpre Hs Hfail.
  assert (run = (σ1, Raise e)) as ->.
  { unfold run. rewrite generate_project_steps. fold steps. io_unfold.
    destruct (prepare refused full_path σ) as [τ r] eqn:E.
    simpl in Hprep. subst r. fold (run_steps steps).
    change τ with σ0.
    rewrite (run_steps_fails_at steps n s σ0 e Hpre Hs Hfail). f_equal.
    eapply artifact_step_raises_unchanged; [|exact Hfail].
    by eapply list_elem_of_lookup_2. }
  split; [done|]. split; [done|]. simpl fst.
  by apply artifact_steps_written.
Qed.

Lemma no_rollback_witness :
  let σ := Demo.machine "# generator" "# template" in
  let run :=
    generate_project Demo.nothing_refused Demo.resolve Demo.pkg_dir
      ["tmp"; "proj1"] "missing.py" None None None None None σ in
  run.2 = Raise FileNotFoundError ∧
  ∀ i out,
    i < 5 →
    artifact_outputs ["tmp"; "proj1"] default_mongodb_port default_http_port
      default_mongodb_user default_mongodb_pass default_server_api_key !! i =
    Some out →
    run.1 !! out.1 = Some (File out.2).
Proof.
  intros σ run.
  destruct (no_rollback Demo.nothing_refused Demo.resolve Demo.pkg_dir
              ["tmp"; "proj1"] "missing.py" None None None None None σ 5
              (_make_app_file Demo.nothing_refused Demo.resolve Demo.pkg_dir
                 ["tmp"; "proj1"] "missing.py")
              FileNotFoundError)
    as (Hraise & _ & Hkept); [vm_compute; reflexivity..|].
  split; [exact Hraise|exact Hkept].
Defined.

(** A run in which the fourth step is refused: the three artifacts
    written before it stay, the two after it are never written. *)
Example refused_requirements_keeps_three :
  let σ := Demo.machine "# generator" "# template" in
  let run :=
    generate_project Demo.requirements_refused Demo.resolve Demo.pkg_dir
      ["tmp"; "proj1"] "my_app.py" None None None None None σ in
  run.2 = Raise PermissionError ∧
  run.1 !! ["tmp"; "proj1"; "docker-compose.yml"] =
    Some (File (docker_compose_contents 27017 8080)) ∧
  run.1 !! ["tmp"; "proj1"; ".env"] =
    Some (File (env_contents 27017 "admin" "p455w0rd" "sample-abcdef")) ∧
  run.1 !! ["tmp"; "proj1"; "server"; "Dockerfile"] =
    Some (File dockerfile_contents) ∧
  run.1 !! ["tmp"; "proj1"; "server"; "requirements.txt"] = None ∧
  run.1 !! ["tmp"; "proj1"; "server"; "__init__.py"] = None ∧
  run.1 !! ["tmp"; "proj1"; "server"; "app.py"] = None.
Proof. vm_compute. repeat split. Qed.

(** C9, amended. Whenever [_make_env_file] goes through with a
    user name, a password and a key that hold no line feed, be they
    supplied or the defaults, the [.env] it leaves gives
    [MONGO_INITDB_ROOT_USERNAME] and [DB_USER] the same value, the user
    name, and [MONGO_INITDB_ROOT_PASSWORD] and [DB_PASS] the same value,
    the password. *)
Theorem credentials_duplicated
    (refused : path → option OSError) (project_path : path)
    (mongodb_port : option Z)
    (mongodb_user mongodb_pass server_api_key : option string) (σ : fs) :
  let user := default default_mongodb_user mongodb_user in
  let pass := default default_mongodb_pass mongodb_pass in
  let run :=
    _make_env_file refused project_path mongodb_port mongodb_user mongodb_pass
      server_api_key σ in
  single_line user = true →
  single_line pass = true →
  single_line (default default_server_api_key server_api_key) = true →
  run.2 = Ok tt →
  ∃ env : string,
    run.1 !! (project_path ++ [".env"]) = Some (File env) ∧
    env_value "MONGO_INITDB_ROOT_USERNAME" env = Some user ∧
    env_value "DB_USER" env = Some user ∧
    env_value "MONGO_INITDB_ROOT_PASSWORD" env = Some pass ∧
    env_value "DB_PASS" env = Some pass.
Proof.
  intros user pass run Hu Hp Hk Hok.
  destruct run as [σ' r] eqn:E. simpl in Hok. subst r.
  unfold _make_env_file in E. apply write_file_again in E as [E _].
  eexists. split; [exact E|].
  destruct (env_contents_carries (default default_mongodb_port mongodb_port)
              user pass (default default_server_api_key server_api_key)
              Hu Hp Hk) as (H1 & H2 & _ & H4 & H5 & _).
  done.
Qed.

Lemma credentials_duplicated_witness :
  let σ := <[["tmp"; "a"] := Dir]> Demo.base_fs in
  let run :=
    _make_env_file Demo.nothing_refused ["tmp"; "a"] None (Some "root")
      None None σ in
  ∃ env : string,
    run.1 !! ["tmp"; "a"; ".env"] = Some (File env) ∧
    env_value "MONGO_INITDB_ROOT_USERNAME" env = Some "root" ∧
    env_value "DB_USER" env = Some "root" ∧
    env_value "MONGO_INITDB_ROOT_PASSWORD" env = Some "p455w0rd" ∧
    env_value "DB_PASS" env = Some "p455w0rd".
Proof.
  apply (credentials_duplicated Demo.nothing_refused ["tmp"; "a"] None
           (Some "root") None None (<[["tmp"; "a"] := Dir]> Demo.base_fs));
    vm_compute; reflexivity.
Defined.

(** C9, counterexample: the user name holds a line feed;
    in the generated text [MONGO_INITDB_ROOT_USERNAME] reads [a] and
    [DB_USER] reads [b], whether the first or the last assignment of a key
    is taken. *)
Lemma line_feed_in_user_splits_credentials :
  let user := "a" +:+ String LF "DB_USER=b" in
  let σ := <[["tmp"; "a"] := Dir]> Demo.base_fs in
  let run :=
    _make_env_file Demo.nothing_refused ["tmp"; "a"] (Some 27017%Z)
      (Some user) (Some "p") (Some "k") σ in
  ∃ env : string,
    run.2 = Ok tt ∧
    run.1 !! ["tmp"; "a"; ".env"] = Some (File env) ∧
    env_values "MONGO_INITDB_ROOT_USERNAME" env = ["a"] ∧
    env_values "DB_USER" env = ["b"; "a"; "b"] ∧
    env_value "MONGO_INITDB_ROOT_USERNAME" env ≠ env_value "DB_USER" env.
Proof.
  intros user σ run. exists (env_contents 27017 user "p" "k").
  vm_compute. repeat split. discriminate.
Qed.

(** C10. When the target path names a regular file, the creation of the
    directory raises ([FileExistsError], from [os.makedirs]), this is what
    [generate_project] raises, and the filesystem is left as it was. *)
Theorem target_is_regular_file
    (refused : path → option OSError) (resolve : string → option path)
    (pkg_dir full_path : path) (template : string)
    (mongodb_port http_port : option Z)
    (mongodb_user mongodb_pass server_api_key : option string)
    (σ : fs) (content : string) :
  well_formed σ = true →
  σ !! full_path = Some (File content) →
  makedirs refused full_path true σ = (σ, Raise FileExistsError) ∧
  generate_project refused resolve pkg_dir full_path template mongodb_port
    http_port mongodb_user mongodb_pass server_api_key σ =
  (σ, Raise FileExistsError).
Proof.
  intros Hwf%well_formed_wf Hfile.
  pose proof (makedirs_existing_file refused σ full_path content Hwf Hfile) as E.
  split; [done|]. unfold generate_project. io_unfold. by rewrite E.
Qed.

Lemma target_is_regular_file_witness :
  let σ := Demo.machine "# generator" "# template" in
  σ !! ["home"; "dev"; "notes.txt"] = Some (File "to do") ∧
  generate_project Demo.nothing_refused Demo.resolve Demo.pkg_dir
    ["home"; "dev"; "notes.txt"] "my_app.py" None None None None None σ =
  (σ, Raise FileExistsError).
Proof.
  intros σ. split; [reflexivity|].
  apply (target_is_regular_file Demo.nothing_refused Demo.resolve Demo.pkg_dir
           ["home"; "dev"; "notes.txt"] "my_app.py" None None None None None
           σ "to do"); reflexivity.
Defined.

End Claims.

(** ** What the primitives may change *)

Module EffectFacts.
Import OS OSFacts PrimFacts Project Layout Effects Tactics.

Lemma dirs_added_refl (name : path) (σ : fs) : dirs_added name σ σ.
Proof. intros q. by left. Qed.

Lemma dirs_added_weaken (name name' : path) (σ σ' : fs) :
  name `prefix_of` name' → dirs_added name σ σ' → dirs_added name' σ σ'.
Proof.
  intros Hpre H q. destruct (H q) as [?|(? & ? & ?)]; [by left|].
  right. repeat split; [done..|]. by etrans.
Qed.

Lemma dirs_added_trans (name : path) (σ1 σ2 σ3 : fs) :
  dirs_added name σ1 σ2 → dirs_added name σ2 σ3 → dirs_added name σ1 σ3.
Proof.
  intros H12 H23 q.
  destruct (H23 q) as [E23|(E2 & E3 & Hq)]; destruct (H12 q) as [E12|(E1 & E2' & Hq')].
  - left. congruence.
  - right. repeat split; [done| congruence | done].
  - right. repeat split; [congruence | done..].
  - congruence.
Qed.

Lemma dirs_added_kept (name : path) (σ σ' : fs) (q : path) (x : node) :
  dirs_added name σ σ' → σ !! q = Some x → σ' !! q = Some x.
Proof. intros H Hq. destruct (H q) as [->|(? & _)]; congruence. Qed.

Lemma dirs_added_elsewhere (name : path) (σ σ' : fs) (q : path) :
  dirs_added name σ σ' → ¬ q `prefix_of` name → σ' !! q = σ !! q.
Proof. intros H Hq. by destruct (H q) as [->|(_ & _ & ?)]. Qed.

Section WithRefusals.

Variable refused : path → option OSError.

(** [mkdir] changes nothing, or puts one directory where nothing was,
    below a directory. *)
Lemma mkdir_cases (σ σ' : fs) (p : path) (r : result unit) :
  mkdir refused p σ = (σ', r) →
  (σ' = σ ∧ ∃ e, r = Raise e) ∨
  (r = Ok tt ∧ σ !! p = None ∧ σ' = <[p := Dir]> σ ∧
   ∃ q n, p = q ++ [n] ∧ σ !! q = Some Dir).
Proof.
  unfold mkdir. intros H.
  destruct (σ !! p) as [x|] eqn:Ep; [inversion H; eauto|].
  destruct (parent p) as [q|] eqn:Eq; [|inversion H; eauto].
  destruct (σ !! q) as [[c|]|] eqn:Eqq; [inversion H; eauto| |inversion H; eauto].
  destruct (refused p); inversion H; subst; [eauto|].
  right. apply parent_Some in Eq as [n ->]. eauto 10.
Qed.

(** [makedirs] only ever adds directories, at prefixes of its path, and
    keeps the tree well formed, whether it returns or raises; when it
    returns, the path is a directory. *)
Lemma makedirs_rev_effect (rname : path) (exist_ok : bool) :
  ∀ (σ σ' : fs) (r : result unit),
    makedirs_rev refused rname exist_ok σ = (σ', r) →
    dirs_added (rev rname) σ σ' ∧ (fs_wf σ → fs_wf σ') ∧
    (r = Ok tt → σ' !! rev rname = Some Dir).
Proof.
  induction rname as [|t rhead IH]; intros σ σ' r; rewrite makedirs_rev_unfold.
  - simpl. destruct (mkdir refused [] σ) as [σ2 r2] eqn:Em.
    apply mkdir_cases in Em as [[-> (e & ->)]|(-> & _ & _ & q & n & E & _)];
      [|by destruct q].
    destruct (negb exist_ok || negb (isdir σ [])) eqn:Eb; intros [= <- <-].
    + split; [apply dirs_added_refl|]. split; done.
    + split; [apply dirs_added_refl|]. split; [done|]. intros _.
      apply orb_false_iff in Eb as [_ Eb]. apply negb_false_iff in Eb.
      by apply isdir_true.
  - simpl rev.
    assert (∃ (σ1 : fs) (r1 : result unit),
      (if exists_ σ (rev rhead) then (σ, Ok tt)
       else match makedirs_rev refused rhead exist_ok σ with
            | (σ', Raise FileExistsError) => (σ', Ok tt)
            | r => r
            end) = (σ1, r1) ∧
      dirs_added (rev rhead) σ σ1 ∧ (fs_wf σ → fs_wf σ1))
      as (σ1 & r1 & -> & Hadd1 & Hwf1).
    { destruct (exists_ σ (rev rhead)).
      - exists σ, (Ok tt). split; [done|]. split; [apply dirs_added_refl|done].
      - destruct (makedirs_rev refused rhead exist_ok σ) as [τ rτ] eqn:Erec.
        destruct (IH σ τ rτ Erec) as (Hadd & Hwf & _).
        destruct rτ as [[]|e]; [by exists τ, (Ok tt)|].
        destruct e; eauto. }
    assert (dirs_added (rev rhead ++ [t]) σ σ1) as Hadd1'.
    { eapply dirs_added_weaken; [|done]. by apply prefix_app_r. }
    destruct r1 as [[]|e1]; [|intros [= <- <-]; split; [done|]; split; done].
    destruct (mkdir refused (rev rhead ++ [t]) σ1) as [σ2 r2] eqn:Em.
    apply mkdir_cases in Em
      as [[-> (e & ->)]|(-> & Hnone & -> & q & n & E & Hq)].
    + destruct (negb exist_ok || negb (isdir σ1 (rev rhead ++ [t]))) eqn:Eb;
        intros [= <- <-]; (split; [done|]); (split; [done|]); [done|].
      intros _. apply orb_false_iff in Eb as [_ Eb]. apply negb_false_iff in Eb.
      by apply isdir_true.
    + intros [= <- <-]. apply app_inj_tail in E as [<- <-].
      split; [|split].
      * eapply dirs_added_trans; [done|]. intros q'.
        rewrite lookup_insert. case_decide as Eq'; [|by left].
        subst q'. right. done.
      * intros Hwf. apply wf_insert_dir; auto.
      * intros _. apply lookup_insert_eq.
Qed.

Lemma makedirs_effect (name : path) (exist_ok : bool) (σ σ' : fs)
    (r : result unit) :
  makedirs refused name exist_ok σ = (σ', r) →
  dirs_added name σ σ' ∧ (fs_wf σ → fs_wf σ') ∧
  (r = Ok tt → σ' !! name = Some Dir).
Proof.
  unfold makedirs. intros H. apply makedirs_rev_effect in H.
  by rewrite rev_involutive in H.
Qed.

(** A write keeps the tree well formed. *)
Lemma write_file_wf (σ σ' : fs) (p : path) (data : string) (r : result unit) :
  fs_wf σ → write_file refused p data σ = (σ', r) → fs_wf σ'.
Proof.
  unfold write_file. intros Hwf H.
  destruct (parent p) as [q|] eqn:Eq;
    [|by destruct (σ !! p) as [[]|]; inversion H; subst].
  apply parent_Some in Eq as [n ->].
  destruct (σ !! (q ++ [n])) as [[c|]|] eqn:Ep; [|by inversion H; subst|];
    (destruct (σ !! q) as [[c'|]|] eqn:Eqq; [by inversion H; subst| |by inversion H; subst]);
    (destruct (refused (q ++ [n])); inversion H; subst; [done|]);
    apply wf_insert_file; auto; by rewrite Ep.
Qed.

Lemma shutil_copy_wf (σ σ' : fs) (src : option path) (dst : path)
    (r : result unit) :
  fs_wf σ → shutil_copy refused src dst σ = (σ', r) → fs_wf σ'.
Proof.
  unfold shutil_copy. intros Hwf H.
  destruct src as [s|]; [|by inversion H; subst].
  destruct (bool_decide _ && exists_ σ s); [by inversion H; subst|].
  destruct (σ !! s) as [[data|]|]; [|by inversion H; subst..].
  by eapply write_file_wf.
Qed.

(** A write that goes through found a directory to write in and no
    directory in its place. *)
Lemma write_file_ok_inv (σ σ' : fs) (p : path) (data : string) :
  write_file refused p data σ = (σ', Ok tt) →
  σ' = <[p := File data]> σ ∧ σ !! p ≠ Some Dir ∧
  ∃ q n, p = q ++ [n] ∧ σ !! q = Some Dir.
Proof.
  unfold write_file. intros H.
  destruct (parent p) as [q|] eqn:Eq;
    [|by destruct (σ !! p) as [[]|]; inversion H].
  apply parent_Some in Eq as [n ->].
  destruct (σ !! q) as [[c'|]|] eqn:Eqq;
    [by destruct (σ !! (q ++ [n])) as [[]|]| |
     by destruct (σ !! (q ++ [n])) as [[]|]].
  destruct (refused (q ++ [n]));
    [by destruct (σ !! (q ++ [n])) as [[]|]|].
  destruct (σ !! (q ++ [n])) as [[c|]|] eqn:Ep; inversion H; subst;
    (split; [done|]); (split; [done|]); eauto.
Qed.

End WithRefusals.

End EffectFacts.

(** ** The shape of every run *)

Module ShapeFacts.
Import OS OSFacts PrimFacts Project Layout RunFacts Effects EffectFacts Tactics.

Lemma written_lookup_other (n : nat) (outputs : list (path * string))
    (σ : fs) (q : path) :
  (∀ out, out ∈ outputs → out.1 ≠ q) →
  written n outputs σ !! q = σ !! q.
Proof.
  unfold written. revert n σ.
  induction outputs as [|out outputs IH]; intros n σ Hne.
  - by rewrite take_nil.
  - destruct n as [|n]; [done|]. simpl. rewrite IH.
    + rewrite lookup_insert_ne; [done|]. apply Hne. left.
    + intros out' Hin. apply Hne. by right.
Qed.

Lemma written_five (full_path : path) (mongodb_port http_port : Z)
    (mongodb_user mongodb_pass server_api_key : string) (σ : fs) :
  written 5
    (artifact_outputs full_path mongodb_port http_port mongodb_user
       mongodb_pass server_api_key) σ =
  composed full_path (docker_compose_contents mongodb_port http_port)
    (env_contents mongodb_port mongodb_user mongodb_pass server_api_key) σ.
Proof. reflexivity. Qed.

Section WithEnvironment.

Variable refused : path → option OSError.
Variable resolve : string → option path.
Variable pkg_dir : path.

Lemma prepare_effect (full_path : path) (σ σ1 : fs) (r : result unit) :
  fs_wf σ →
  prepare refused full_path σ = (σ1, r) →
  dirs_added (full_path ++ ["server"]) σ σ1 ∧ fs_wf σ1 ∧
  (r = Ok tt → ready full_path σ σ1).
Proof.
  intros Hwf. unfold prepare. io_unfold.
  destruct (makedirs refused full_path true σ) as [τ1 r1] eqn:E1.
  apply makedirs_effect in E1 as (Hadd1 & Hwf1 & Hdir1).
  specialize (Hwf1 Hwf).
  assert (dirs_added (full_path ++ ["server"]) σ τ1) as Hadd1'.
  { eapply dirs_added_weaken; [|done]. by apply prefix_app_r. }
  destruct r1 as [[]|e1]; [|by intros [= <- <-]].
  specialize (Hdir1 eq_refl). rewrite (listdir_dir τ1 full_path Hdir1).
  destruct (decide (length (children τ1 full_path) ≠ 0)) as [Hlen|Hlen];
    [by intros [= <- <-]|].
  assert (children τ1 full_path = []) as Hnil.
  { destruct (children τ1 full_path); [done|]. simpl in Hlen. lia. }
  rewrite children_nil in Hnil.
  destruct (makedirs refused (full_path ++ ["server"]) true τ1) as [τ2 r2] eqn:E2.
  apply makedirs_effect in E2 as (Hadd2 & Hwf2 & Hdir2).
  intros [= <- <-]. split; [by eapply dirs_added_trans|]. split; [auto|].
  intros ->. specialize (Hdir2 eq_refl).
  assert (fresh_target τ1 full_path = true) as Hfresh1.
  { apply fresh_target_spec. split; [|done].
    apply creatable_spec. intros q Hq. apply isfile_false. intros c.
    by rewrite (wf_prefix_dir τ1 full_path q Hwf1 Hq Hdir1). }
  repeat split.
  - apply fresh_target_spec. split.
    + apply creatable_spec. intros q Hq. apply isfile_false. intros c Hc.
      pose proof (dirs_added_kept _ _ _ _ _ Hadd1 Hc) as Hc'.
      by rewrite (wf_prefix_dir τ1 full_path q Hwf1 Hq Hdir1) in Hc'.
    + intros n. destruct (σ !! (full_path ++ [n])) as [x|] eqn:Ex; [|done].
      pose proof (dirs_added_kept _ _ _ _ _ Hadd1 Ex) as Hx.
      by rewrite Hnil in Hx.
  - by eapply dirs_added_kept.
  - done.
  - intros rel Hne Hns.
    rewrite (dirs_added_elsewhere _ _ _ _ Hadd2).
    + by apply fresh_target_below.
    + intros Hpre. apply prefix_app_inv in Hpre.
      destruct rel as [|n rel]; [done|].
      pose proof (prefix_cons_inv_1 _ _ _ _ Hpre) as ->.
      by apply prefix_cons_inv_2, prefix_nil_inv in Hpre as ->.
Qed.

(** The six steps, started where the preparation left: they stop at the
    first step that raises, with the composed files written so far, or
    all go through, and [server/app.py] holds the bytes of the
    template's source. *)
Lemma steps_effect (full_path : path) (template : string)
    (mongodb_port http_port : Z)
    (mongodb_user mongodb_pass server_api_key : string)
    (σ1 σ' : fs) (r : result unit) :
  let outputs :=
    artifact_outputs full_path mongodb_port http_port mongodb_user
      mongodb_pass server_api_key in
  σ1 !! (full_path ++ ["server"; "app.py"]) = None →
  run_steps (artifact_steps refused resolve pkg_dir full_path template
               mongodb_port http_port mongodb_user mongodb_pass
               server_api_key) σ1 = (σ', r) →
  (∃ (n : nat) (e : OSError), (n ≤ 5)%nat ∧ r = Raise e ∧ σ' = written n outputs σ1) ∨
  (r = Ok tt ∧
   ∃ src data,
     template_source resolve pkg_dir template = Some src ∧
     written 5 outputs σ1 !! src = Some (File data) ∧
     σ' = <[full_path ++ ["server"; "app.py"] := File data]>
            (written 5 outputs σ1)).
Proof.
  intros outputs Happ. unfold artifact_steps, run_steps. io_unfold.
  unfold _make_docker_compose_file, _make_env_file, _make_dockerfile,
    _make_requirements_file, _make_init_file, _make_app_file. simpl default.
  repeat match goal with
         | |- context [write_file refused ?p ?d ?σ] =>
           let E := fresh "E" in
           destruct (write_file refused p d σ) as [? [[]|?]] eqn:E;
           apply write_file_cases in E as [[? ->]|(? & ? & ->)]; try done
         end.
  all: try (intros [= <- <-]; left;
            match goal with
            | e : OSError |- _ =>
              first [ exists 0, e; split; [lia|]; split; reflexivity
                    | exists 1, e; split; [lia|]; split; reflexivity
                    | exists 2, e; split; [lia|]; split; reflexivity
                    | exists 3, e; split; [lia|]; split; reflexivity
                    | exists 4, e; split; [lia|]; split; reflexivity ]
            end).
  { destruct (shutil_copy _ _ _ _) as [τ [[]|e]] eqn:Ecopy;
       apply shutil_copy_cases in Ecopy
         as [[? (src & data & Esrc & Hsrc & ->)]|(? & ? & ->)]; try done;
       intros [= <- <-].
       - right. split; [done|]. exists src, data. split; [done|].
         split; [exact Hsrc|].
         assert (isdir
                   (<[full_path ++ ["server"; "__init__.py"]:=File ""]>
                      (<[full_path ++ ["server"; "requirements.txt"]:=
                           File requirements_contents]>
                         (<[full_path ++ ["server"; "Dockerfile"]:=
                              File dockerfile_contents]>
                            (<[full_path ++ [".env"]:=
                                 File (env_contents mongodb_port mongodb_user
                                         mongodb_pass server_api_key)]>
                               (<[full_path ++ ["docker-compose.yml"]:=
                                    File (docker_compose_contents mongodb_port
                                            http_port)]> σ1)))))
                   (full_path ++ ["server"; "app.py"]) = false) as ->; [|done].
         unfold isdir. rewrite !lookup_insert_ne by path_ne. by rewrite Happ.
       - left. exists 5, e. done. }
Qed.

(** Every run, seen from a well-formed filesystem [σ]: the preparation
    adds directories on the way to [server] and may raise; past it the
    target was fresh, and the steps go as [steps_effect] says. *)
Lemma run_shape (full_path : path) (template : string)
    (mongodb_port http_port : option Z)
    (mongodb_user mongodb_pass server_api_key : option string) (σ : fs) :
  let outputs :=
    artifact_outputs full_path
      (default default_mongodb_port mongodb_port)
      (default default_http_port http_port)
      (default default_mongodb_user mongodb_user)
      (default default_mongodb_pass mongodb_pass)
      (default default_server_api_key server_api_key) in
  let run :=
    generate_project refused resolve pkg_dir full_path template mongodb_port
      http_port mongodb_user mongodb_pass server_api_key σ in
  fs_wf σ →
  ∃ σ1 : fs,
    dirs_added (full_path ++ ["server"]) σ σ1 ∧ fs_wf σ1 ∧
    ((∃ e, run = (σ1, Raise e)) ∨
     (ready full_path σ σ1 ∧
      ∃ (n : nat) (e : OSError), (n ≤ 5)%nat ∧ run = (written n outputs σ1, Raise e)) ∨
     (ready full_path σ σ1 ∧
      ∃ src data,
        template_source resolve pkg_dir template = Some src ∧
        written 5 outputs σ1 !! src = Some (File data) ∧
        run = (<[full_path ++ ["server"; "app.py"] := File data]>
                 (written 5 outputs σ1), Ok tt))).
Proof.
  intros outputs run Hwf. unfold run. rewrite generate_project_steps.
  change (_ ;; _) with
    (λ σ0 : fs,
       let (σ', r) := prepare refused full_path σ0 in
       match r with
       | Ok _ =>
         run_steps
           (artifact_steps refused resolve pkg_dir full_path template
              (default default_mongodb_port mongodb_port)
              (default default_http_port http_port)
              (default default_mongodb_user mongodb_user)
              (default default_mongodb_pass mongodb_pass)
              (default default_server_api_key server_api_key)) σ'
       | Raise e => (σ', Raise e)
       end).
  cbv beta.
  destruct (prepare refused full_path σ) as [σ1 r1] eqn:Eprep.
  destruct (prepare_effect full_path σ σ1 r1 Hwf Eprep) as (Hadd & Hwf1 & Hready).
  exists σ1. split; [done|]. split; [done|].
  destruct r1 as [[]|e1]; [|left; by exists e1].
  specialize (Hready eq_refl). right.
  destruct (run_steps _ σ1) as [σ' r] eqn:Esteps.
  apply steps_effect in Esteps as [(n & e & Hn & -> & ->)|(-> & src & data & Hsrc & Hdata & ->)].
  - left. split; [done|]. by exists n, e.
  - right. split; [done|]. by exists src, data.
  - destruct Hready as (_ & _ & _ & Hbelow). by apply Hbelow.
Qed.

End WithEnvironment.

End ShapeFacts.

(** ** Further properties of the generator *)

Module Further.
Import OS OSFacts PrimFacts Project Layout RunFacts Reader ReaderFacts
  TextFacts Effects EffectFacts ShapeFacts Tactics Support Template.

(** The composed files lie below the target, and not at [server]. *)
Lemma artifact_outputs_below (full_path : path) (mongodb_port http_port : Z)
    (mongodb_user mongodb_pass server_api_key : string) (out : path * string) :
  out ∈ artifact_outputs full_path mongodb_port http_port mongodb_user
          mongodb_pass server_api_key →
  out.1 ∈ artifact_paths full_path ∧
  out.1 ≠ full_path ++ ["server"; "app.py"] ∧
  ∃ rel, out.1 = full_path ++ rel ∧ rel ≠ [] ∧ rel ≠ ["server"].
Proof.
  unfold artifact_outputs, artifact_paths.
  rewrite !elem_of_cons, elem_of_nil.
  intros [->|[->|[->|[->|[->|[]]]]]]; simpl;
    (split; [repeat first [by left | right]|]); (split; [path_ne|]);
    eexists; eauto.
Qed.

(** X1. A run never changes or removes what was there. *)
Theorem existing_entries_kept
    (refused : path → option OSError) (resolve : string → option path)
    (pkg_dir full_path : path) (template : string)
    (mongodb_port http_port : option Z)
    (mongodb_user mongodb_pass server_api_key : option string)
    (σ : fs) (q : path) (x : node) :
  well_formed σ = true →
  σ !! q = Some x →
  (generate_project refused resolve pkg_dir full_path template mongodb_port
     http_port mongodb_user mongodb_pass server_api_key σ).1 !! q = Some x.
Proof.
  intros Hwf%well_formed_wf Hq.
  destruct (run_shape refused resolve pkg_dir full_path template mongodb_port
              http_port mongodb_user mongodb_pass server_api_key σ Hwf)
    as (σ1 & Hadd & Hwf1 & Hcases).
  pose proof (dirs_added_kept _ _ _ _ _ Hadd Hq) as Hq1.
  assert (∀ rel, rel ≠ [] → rel ≠ ["server"] →
                 σ1 !! (full_path ++ rel) = None → q ≠ full_path ++ rel)
    as Hne by (intros rel _ _ Hnone ->; congruence).
  destruct Hcases
    as [(e & ->)|[(Hready & n & e & _ & ->)
                 |(Hready & src & data & _ & _ & ->)]]; simpl.
  - done.
  - destruct Hready as (_ & _ & _ & Hbelow).
    rewrite written_lookup_other; [done|].
    intros out Hout.
    apply artifact_outputs_below in Hout as (_ & _ & rel & Erel & ? & ?).
    rewrite Erel. apply not_eq_sym, Hne; auto.
  - destruct Hready as (_ & _ & _ & Hbelow).
    rewrite lookup_insert_ne by (apply not_eq_sym, Hne; [done..|by apply Hbelow]).
    rewrite written_lookup_other; [done|].
    intros out Hout.
    apply artifact_outputs_below in Hout as (_ & _ & rel & Erel & ? & ?).
    rewrite Erel. apply not_eq_sym, Hne; auto.
Qed.

Lemma existing_entries_kept_witness :
  (generate_project Demo.nothing_refused Demo.resolve Demo.pkg_dir
     ["home"; "dev"; "site"; "new"] "my_app.py" None None None None None
     (Demo.machine "# generator" "# template")).1
  !! ["home"; "dev"; "site"; "index.html"] = Some (File "<html/>").
Proof.
  apply (existing_entries_kept Demo.nothing_refused Demo.resolve Demo.pkg_dir
           ["home"; "dev"; "site"; "new"] "my_app.py" None None None None None
           (Demo.machine "# generator" "# template")
           ["home"; "dev"; "site"; "index.html"] (File "<html/>"));
    reflexivity.
Defined.

(** X2. Whatever a run adds lies on the way to [server] or is one of the
    six artifacts. *)
Theorem changes_confined
    (refused : path → option OSError) (resolve : string → option path)
    (pkg_dir full_path : path) (template : string)
    (mongodb_port http_port : option Z)
    (mongodb_user mongodb_pass server_api_key : option string)
    (σ : fs) (q : path) :
  well_formed σ = true →
  (generate_project refused resolve pkg_dir full_path template mongodb_port
     http_port mongodb_user mongodb_pass server_api_key σ).1 !! q ≠ σ !! q →
  q `prefix_of` full_path ++ ["server"] ∨ q ∈ artifact_paths full_path.
Proof.
  intros Hwf%well_formed_wf Hchg.
  destruct (decide (q `prefix_of` full_path ++ ["server"])) as [|Hnp]; [by left|].
  destruct (decide (q ∈ artifact_paths full_path)) as [|Hna]; [by right|].
  exfalso. apply Hchg. clear Hchg.
  destruct (run_shape refused resolve pkg_dir full_path template mongodb_port
              http_port mongodb_user mongodb_pass server_api_key σ Hwf)
    as (σ1 & Hadd & Hwf1 & Hcases).
  pose proof (dirs_added_elsewhere _ _ _ _ Hadd Hnp) as Hq1.
  assert (q ≠ full_path ++ ["server"; "app.py"]) as Happ.
  { intros ->. apply Hna. unfold artifact_paths. do 5 right. left. }
  destruct Hcases
    as [(e & ->)|[(Hready & n & e & _ & ->)
                 |(Hready & src & data & _ & _ & ->)]]; simpl.
  - done.
  - rewrite written_lookup_other; [done|].
    intros out Hout Eq.
    apply artifact_outputs_below in Hout as (Hin & _). by rewrite Eq in Hin.
  - rewrite lookup_insert_ne by done.
    rewrite written_lookup_other; [done|].
    intros out Hout Eq.
    apply artifact_outputs_below in Hout as (Hin & _). by rewrite Eq in Hin.
Qed.

Lemma changes_confined_witness :
  ["tmp"; "proj1"; "server"] `prefix_of` ["tmp"; "proj1"] ++ ["server"] ∨
  ["tmp"; "proj1"; "server"] ∈ artifact_paths ["tmp"; "proj1"].
Proof.
  apply (changes_confined Demo.nothing_refused Demo.resolve Demo.pkg_dir
           ["tmp"; "proj1"] "missing.py" None None None None None
           (Demo.machine "# generator" "# template")
           ["tmp"; "proj1"; "server"]); [reflexivity|].
  vm_compute. discriminate.
Defined.

Lemma run_steps_wf (steps : list (io unit)) :
  (∀ s, s ∈ steps → ∀ σ σ' r, fs_wf σ → s σ = (σ', r) → fs_wf σ') →
  ∀ σ σ' r, fs_wf σ → run_steps steps σ = (σ', r) → fs_wf σ'.
Proof.
  induction steps as [|s steps IH]; intros Hall σ σ' r Hwf; simpl; io_unfold.
  - by intros [= <- <-].
  - destruct (s σ) as [σ1 r1] eqn:Es.
    assert (fs_wf σ1) as Hwf1 by (eapply Hall; [left|done..]).
    destruct r1 as [[]|e]; [|by intros [= <- <-]].
    apply IH; [|done]. intros s' Hs'. apply Hall. by right.
Qed.

Lemma artifact_step_wf
    (refused : path → option OSError) (resolve : string → option path)
    (pkg_dir full_path : path) (template : string) (mongodb_port http_port : Z)
    (mongodb_user mongodb_pass server_api_key : string) (s : io unit) :
  s ∈ artifact_steps refused resolve pkg_dir full_path template mongodb_port
        http_port mongodb_user mongodb_pass server_api_key →
  ∀ σ σ' r, fs_wf σ → s σ = (σ', r) → fs_wf σ'.
Proof.
  unfold artifact_steps. rewrite !elem_of_cons, elem_of_nil.
  intros [->|[->|[->|[->|[->|[->|[]]]]]]] σ σ' r Hwf;
    unfold _make_docker_compose_file, _make_env_file, _make_dockerfile,
      _make_requirements_file, _make_init_file, _make_app_file;
    first [ by apply write_file_wf | by apply shutil_copy_wf ].
Qed.

Lemma generate_project_wf
    (refused : path → option OSError) (resolve : string → option path)
    (pkg_dir full_path : path) (template : string)
    (mongodb_port http_port : option Z)
    (mongodb_user mongodb_pass server_api_key : option string) (σ : fs) :
  fs_wf σ →
  fs_wf
    (generate_project refused resolve pkg_dir full_path template mongodb_port
       http_port mongodb_user mongodb_pass server_api_key σ).1.
Proof.
  intros Hwf. rewrite generate_project_steps. io_unfold.
  destruct (prepare refused full_path σ) as [σ1 r1] eqn:Eprep.
  destruct (prepare_effect refused full_path σ σ1 r1 Hwf Eprep) as (_ & Hwf1 & _).
  destruct r1 as [[]|e1]; [|done].
  destruct (run_steps _ σ1) as [σ' r] eqn:Esteps. simpl.
  eapply run_steps_wf; [|exact Hwf1|exact Esteps].
  apply artifact_step_wf.
Qed.

(** X3. When a run returns, the target was fresh, the selector's source
    is a regular file, and the target holds the complete project. *)
Theorem returns_only_complete
    (refused : path → option OSError) (resolve : string → option path)
    (pkg_dir full_path : path) (template : string)
    (mongodb_port http_port : option Z)
    (mongodb_user mongodb_pass server_api_key : option string) (σ : fs) :
  let run :=
    generate_project refused resolve pkg_dir full_path template mongodb_port
      http_port mongodb_user mongodb_pass server_api_key σ in
  let compose :=
    docker_compose_contents (default default_mongodb_port mongodb_port)
      (default default_http_port http_port) in
  let env :=
    env_contents (default default_mongodb_port mongodb_port)
      (default default_mongodb_user mongodb_user)
      (default default_mongodb_pass mongodb_pass)
      (default default_server_api_key server_api_key) in
  well_formed σ = true →
  run.2 = Ok tt →
  fresh_target σ full_path = true ∧
  ∃ src data,
    template_source resolve pkg_dir template = Some src ∧
    run.1 !! src = Some (File data) ∧
    ∀ rel, rel ≠ [] →
           run.1 !! (full_path ++ rel) = project_tree compose env data !! rel.
Proof.
  intros run compose env Hwf%well_formed_wf Hok.
  destruct (run_shape refused resolve pkg_dir full_path template mongodb_port
              http_port mongodb_user mongodb_pass server_api_key σ Hwf)
    as (σ1 & Hadd & Hwf1 & Hcases).
  fold run in Hcases.
  destruct Hcases
    as [(e & E)|[(Hready & n & e & _ & E)
                |(Hready & src & data & Hsrc & Hdata & E)]];
    rewrite E in Hok |- *; [done..|]. simpl.
  destruct Hready as (Hfresh & Hfull & Hserver & Hbelow).
  split; [done|]. exists src, data. split; [done|].
  rewrite written_five in *. fold compose env in Hdata |- *.
  assert (composed full_path compose env σ1 !! (full_path ++ ["server"; "app.py"])
          = None) as Happ.
  { rewrite composed_lookup. rewrite !decide_False by path_ne. by apply Hbelow. }
  split.
  - rewrite lookup_insert_ne; [done|]. intros <-. congruence.
  - intros rel Hrel. rewrite lookup_insert. case_decide as E1.
    { apply app_inv_head in E1 as <-. reflexivity. }
    rewrite composed_lookup.
    repeat (case_decide;
            [match goal with
             | E' : full_path ++ rel = _ |- _ =>
               apply app_inv_head in E' as ->; reflexivity
             end|]).
    destruct (decide (rel = ["server"])) as [->|Hns]; [by rewrite Hserver|].
    rewrite Hbelow by done. symmetry. apply project_tree_other; congruence.
Qed.

Lemma returns_only_complete_witness :
  let run :=
    generate_project Demo.nothing_refused Demo.resolve Demo.pkg_dir
      ["tmp"; "proj1"] "my_app.py" None None None None None
      (Demo.machine "# generator" "# template") in
  fresh_target (Demo.machine "# generator" "# template") ["tmp"; "proj1"] =
    true ∧
  ∃ src data,
    template_source Demo.resolve Demo.pkg_dir "my_app.py" = Some src ∧
    run.1 !! src = Some (File data) ∧
    ∀ rel, rel ≠ [] →
           run.1 !! (["tmp"; "proj1"] ++ rel) =
           project_tree (docker_compose_contents 27017 8080)
             (env_contents 27017 "admin" "p455w0rd" "sample-abcdef") data
           !! rel.
Proof.
  apply (returns_only_complete Demo.nothing_refused Demo.resolve Demo.pkg_dir
           ["tmp"; "proj1"] "my_app.py" None None None None None
           (Demo.machine "# generator" "# template"));
    vm_compute; reflexivity.
Defined.

(** A directory that holds an entry is turned down, and left alone. *)
Lemma turned_down_when_not_empty
    (refused : path → option OSError) (resolve : string → option path)
    (pkg_dir full_path : path) (template : string)
    (mongodb_port http_port : option Z)
    (mongodb_user mongodb_pass server_api_key : option string)
    (σ : fs) (entry : string) (x : node) :
  fs_wf σ → σ !! full_path = Some Dir → σ !! (full_path ++ [entry]) = Some x →
  generate_project refused resolve pkg_dir full_path template mongodb_port
    http_port mongodb_user mongodb_pass server_api_key σ =
  (σ, Raise (OSError_msg "Directory not empty")).
Proof.
  intros Hwf Hdir Hentry. unfold generate_project. io_unfold.
  rewrite (makedirs_existing_dir refused σ full_path Hwf Hdir).
  rewrite (listdir_dir σ full_path Hdir).
  destruct (children σ full_path) as [|n l] eqn:E; [|done].
  rewrite children_nil in E. by rewrite E in Hentry.
Qed.

(** X4. After a run on a fresh target, be it complete or stopped at the
    copy of the template, another run on the same target, whatever its
    parameters and environment, raises [OSError("Directory not empty")]
    and changes nothing. *)
Theorem second_run_turned_down
    (refused refused' : path → option OSError)
    (resolve resolve' : string → option path)
    (pkg_dir pkg_dir' full_path : path) (template template' : string)
    (mongodb_port http_port mongodb_port' http_port' : option Z)
    (mongodb_user mongodb_pass server_api_key : option string)
    (mongodb_user' mongodb_pass' server_api_key' : option string) (σ : fs) :
  let first :=
    generate_project refused resolve pkg_dir full_path template mongodb_port
      http_port mongodb_user mongodb_pass server_api_key σ in
  well_formed σ = true →
  fresh_target σ full_path = true →
  (∀ q, refused q = None) →
  generate_project refused' resolve' pkg_dir' full_path template'
    mongodb_port' http_port' mongodb_user' mongodb_pass' server_api_key'
    first.1 =
  (first.1, Raise (OSError_msg "Directory not empty")).
Proof.
  intros first Hwf%well_formed_wf Hfresh Hr.
  pose proof (generate_project_wf refused resolve pkg_dir full_path template
                mongodb_port http_port mongodb_user mongodb_pass
                server_api_key σ Hwf) as Hwf'.
  destruct (fresh_run_texts refused resolve pkg_dir full_path template
              mongodb_port http_port mongodb_user mongodb_pass server_api_key
              σ Hwf Hfresh Hr) as [Hcompose _].
  fold first in Hwf', Hcompose.
  eapply turned_down_when_not_empty; [done| |exact Hcompose].
  destruct Hwf' as [_ Hwf']. apply (Hwf' full_path "docker-compose.yml").
  by rewrite Hcompose.
Qed.

Lemma second_run_turned_down_witness :
  let first :=
    generate_project Demo.nothing_refused Demo.resolve Demo.pkg_dir
      ["tmp"; "proj1"] "missing.py" None None None None None
      (Demo.machine "# generator" "# template") in
  generate_project Demo.nothing_refused Demo.resolve Demo.pkg_dir
    ["tmp"; "proj1"] "my_app.py" (Some 27018%Z) None None None None first.1 =
  (first.1, Raise (OSError_msg "Directory not empty")).
Proof.
  apply (second_run_turned_down Demo.nothing_refused Demo.nothing_refused
           Demo.resolve Demo.resolve Demo.pkg_dir Demo.pkg_dir
           ["tmp"; "proj1"] "missing.py" "my_app.py" None None
           (Some 27018%Z) None None None None None None None
           (Demo.machine "# generator" "# template")); reflexivity.
Defined.

(** [makedirs] below a regular file raises [NotADirectoryError] and
    creates nothing. *)
Lemma makedirs_below_file (refused : path → option OSError) (σ : fs)
    (file rest : path) (content : string) :
  fs_wf σ → σ !! file = Some (File content) → rest ≠ [] →
  makedirs refused (file ++ rest) true σ = (σ, Raise NotADirectoryError).
Proof.
  intros Hwf Hfile. unfold makedirs.
  assert (∀ rel, rel ≠ [] → σ !! (file ++ rel) = None) as Hbelow.
  { intros rel Hrel. destruct (σ !! (file ++ rel)) as [x|] eqn:E; [|done].
    assert (σ !! file = Some Dir); [|congruence].
    apply (wf_above σ file rel); [done..|by rewrite E]. }
  induction rest as [|n rest IH] using rev_ind; [done|]. intros _.
  rewrite app_assoc, rev_app_distr. cbn [rev app].
  rewrite makedirs_rev_unfold. cbn [rev app]. rewrite rev_involutive.
  assert (mkdir refused ((file ++ rest) ++ [n]) σ = (σ, Raise NotADirectoryError)
          → isdir σ ((file ++ rest) ++ [n]) = false →
          match mkdir refused ((file ++ rest) ++ [n]) σ with
          | (σ2, Raise e) =>
            if negb true || negb (isdir σ2 ((file ++ rest) ++ [n]))
            then (σ2, Raise e) else (σ2, Ok tt)
          | r => r
          end = (σ, Raise NotADirectoryError)) as Hlast.
  { intros -> Hd. by rewrite Hd. }
  destruct (decide (rest = [])) as [->|Hne].
  - rewrite app_nil_r in *. unfold exists_. rewrite Hfile.
    assert (σ !! (file ++ [n]) = None) as Hleaf by by apply Hbelow.
    apply Hlast.
    + unfold mkdir. by rewrite Hleaf, parent_snoc, Hfile.
    + unfold isdir. by rewrite Hleaf.
  - assert (exists_ σ (file ++ rest) = false) as ->.
    { unfold exists_. by rewrite Hbelow. }
    by rewrite (IH Hne).
Qed.

(** X5. When a regular file lies on the way to the target, the run raises
    [NotADirectoryError] and the filesystem is left as it was. *)
Theorem target_below_regular_file
    (refused : path → option OSError) (resolve : string → option path)
    (pkg_dir file rest : path) (template : string)
    (mongodb_port http_port : option Z)
    (mongodb_user mongodb_pass server_api_key : option string)
    (σ : fs) (content : string) :
  well_formed σ = true →
  σ !! file = Some (File content) →
  rest ≠ [] →
  generate_project refused resolve pkg_dir (file ++ rest) template
    mongodb_port http_port mongodb_user mongodb_pass server_api_key σ =
  (σ, Raise NotADirectoryError).
Proof.
  intros Hwf%well_formed_wf Hfile Hrest.
  unfold generate_project. io_unfold.
  by rewrite (makedirs_below_file refused σ file rest content Hwf Hfile Hrest).
Qed.

Lemma target_below_regular_file_witness :
  let σ := Demo.machine "# generator" "# template" in
  generate_project Demo.nothing_refused Demo.resolve Demo.pkg_dir
    (["home"; "dev"; "notes.txt"] ++ ["proj"; "one"]) "my_app.py"
    None None None None None σ =
  (σ, Raise NotADirectoryError).
Proof.
  intros σ.
  apply (target_below_regular_file Demo.nothing_refused Demo.resolve
           Demo.pkg_dir ["home"; "dev"; "notes.txt"] ["proj"; "one"]
           "my_app.py" None None None None None σ "to do");
    [reflexivity|reflexivity|discriminate].
Defined.

(** X6. A selector whose source is a directory makes the copy raise
    [IsADirectoryError], after the five composed files are written and
    without [server/app.py]. *)
Theorem directory_as_template
    (refused : path → option OSError) (resolve : string → option path)
    (pkg_dir full_path : path) (template : string)
    (mongodb_port http_port : option Z)
    (mongodb_user mongodb_pass server_api_key : option string)
    (σ : fs) (src : path) :
  let run :=
    generate_project refused resolve pkg_dir full_path template mongodb_port
      http_port mongodb_user mongodb_pass server_api_key σ in
  let outputs :=
    artifact_outputs full_path
      (default default_mongodb_port mongodb_port)
      (default default_http_port http_port)
      (default default_mongodb_user mongodb_user)
      (default default_mongodb_pass mongodb_pass)
      (default default_server_api_key server_api_key) in
  well_formed σ = true →
  fresh_target σ full_path = true →
  (∀ q, refused q = None) →
  template_source resolve pkg_dir template = Some src →
  σ !! src = Some Dir →
  run.2 = Raise IsADirectoryError ∧
  run.1 !! (full_path ++ ["server"; "app.py"]) = None ∧
  ∀ out, out ∈ outputs → run.1 !! out.1 = Some (File out.2).
Proof.
  intros run outputs Hwf%well_formed_wf Hfresh Hr Hsrc Hdir.
  destruct (generate_project_fresh refused resolve pkg_dir full_path template
              mongodb_port http_port mongodb_user mongodb_pass server_api_key
              σ Hwf Hfresh Hr) as (σ1 & Hprep & E).
  assert (∀ rel, rel ≠ [] → src ≠ full_path ++ rel) as Hapart.
  { intros rel Hrel ->. by rewrite fresh_target_below in Hdir. }
  assert (∀ rel, rel ≠ [] → rel ≠ ["server"] → σ1 !! (full_path ++ rel) = None)
    as Hbelow by (intros; by eapply prepared_below).
  set (σ5 := composed full_path _ _ σ1) in E.
  assert (σ5 !! src = Some Dir) as Hsrc5.
  { unfold σ5. rewrite composed_lookup.
    rewrite !decide_False by (by apply Hapart).
    destruct Hprep as [_ Hσ1]. rewrite Hσ1. by case_decide. }
  assert (σ5 !! (full_path ++ ["server"; "app.py"]) = None) as Happ.
  { unfold σ5. rewrite composed_lookup. rewrite !decide_False by path_ne.
    by apply Hbelow. }
  assert (run = (σ5, Raise IsADirectoryError)) as ->.
  { unfold run. rewrite E. unfold _make_app_file, shutil_copy. rewrite Hsrc.
    unfold isdir. rewrite Happ, Hsrc5.
    rewrite bool_decide_eq_false_2; [done|]. by apply Hapart. }
  split; [done|]. split; [done|]. simpl. intros out Hout.
  unfold outputs, artifact_outputs in Hout.
  rewrite !elem_of_cons, elem_of_nil in Hout.
  unfold σ5. rewrite composed_lookup.
  destruct Hout as [->|[->|[->|[->|[->|[]]]]]]; simpl;
    rewrite ?decide_False by path_ne; by rewrite decide_True.
Qed.

Lemma directory_as_template_witness :
  let run :=
    generate_project Demo.nothing_refused Demo.resolve Demo.pkg_dir
      ["tmp"; "proj1"] "site" None None None None None
      (Demo.machine "# generator" "# template") in
  run.2 = Raise IsADirectoryError ∧
  run.1 !! (["tmp"; "proj1"] ++ ["server"; "app.py"]) = None ∧
  ∀ out,
    out ∈ artifact_outputs ["tmp"; "proj1"] default_mongodb_port
            default_http_port default_mongodb_user default_mongodb_pass
            default_server_api_key →
    run.1 !! out.1 = Some (File out.2).
Proof.
  apply (directory_as_template Demo.nothing_refused Demo.resolve Demo.pkg_dir
           ["tmp"; "proj1"] "site" None None None None None
           (Demo.machine "# generator" "# template") ["home"; "dev"; "site"]);
    reflexivity.
Defined.

(** X7. The source of the template is read after the composed files are
    written: a selector that names one of them, which is not there
    before the run, is accepted, and [server/app.py] is a copy of that
    file. *)
Theorem composed_file_as_template
    (refused : path → option OSError) (resolve : string → option path)
    (pkg_dir full_path : path) (template : string)
    (mongodb_port http_port : option Z)
    (mongodb_user mongodb_pass server_api_key : option string)
    (σ : fs) (out : path * string) :
  let run :=
    generate_project refused resolve pkg_dir full_path template mongodb_port
      http_port mongodb_user mongodb_pass server_api_key σ in
  let outputs :=
    artifact_outputs full_path
      (default default_mongodb_port mongodb_port)
      (default default_http_port http_port)
      (default default_mongodb_user mongodb_user)
      (default default_mongodb_pass mongodb_pass)
      (default default_server_api_key server_api_key) in
  well_formed σ = true →
  fresh_target σ full_path = true →
  (∀ q, refused q = None) →
  out ∈ outputs →
  template_source resolve pkg_dir template = Some out.1 →
  σ !! out.1 = None ∧
  run.2 = Ok tt ∧
  run.1 !! (full_path ++ ["server"; "app.py"]) = Some (File out.2).
Proof.
  intros run outputs Hwf%well_formed_wf Hfresh Hr Hout Hsrc.
  destruct (generate_project_fresh refused resolve pkg_dir full_path template
              mongodb_port http_port mongodb_user mongodb_pass server_api_key
              σ Hwf Hfresh Hr) as (σ1 & Hprep & E).
  pose proof (prepared_dirs _ _ _ Hprep) as [Hfull Hserver].
  assert (∀ rel, rel ≠ [] → rel ≠ ["server"] → σ1 !! (full_path ++ rel) = None)
    as Hbelow by (intros; by eapply prepared_below).
  set (σ5 := composed full_path _ _ σ1) in E.
  assert (σ5 !! out.1 = Some (File out.2)) as Hout5.
  { unfold outputs, artifact_outputs in Hout.
    rewrite !elem_of_cons, elem_of_nil in Hout.
    unfold σ5. rewrite composed_lookup.
    destruct Hout as [->|[->|[->|[->|[->|[]]]]]]; simpl;
      rewrite ?decide_False by path_ne; by rewrite decide_True. }
  split.
  { apply artifact_outputs_below in Hout as (_ & _ & rel & -> & Hrel & _).
    by apply fresh_target_below. }
  assert (run = (<[full_path ++ ["server"; "app.py"] := File out.2]> σ5, Ok tt))
    as ->.
  { unfold run. rewrite E. unfold _make_app_file. rewrite Hsrc.
    replace (full_path ++ ["server"; "app.py"])
      with ((full_path ++ ["server"]) ++ ["app.py"]) by by rewrite <- app_assoc.
    apply shutil_copy_ok; [done| | |done].
    - unfold σ5. rewrite composed_lookup. by rewrite !decide_False by path_ne.
    - rewrite <- app_assoc. simpl. unfold σ5. rewrite composed_lookup.
      rewrite !decide_False by path_ne. by apply Hbelow. }
  split; [done|]. simpl. apply lookup_insert_eq.
Qed.

Lemma composed_file_as_template_witness :
  let σ := Demo.machine "# generator" "# template" in
  let run :=
    generate_project Demo.nothing_refused Demo.resolve Demo.pkg_dir
      ["tmp"; "proj1"] "/tmp/proj1/.env" None None None None None σ in
  σ !! ["tmp"; "proj1"; ".env"] = None ∧
  run.2 = Ok tt ∧
  run.1 !! (["tmp"; "proj1"] ++ ["server"; "app.py"]) =
    Some (File (env_contents 27017 "admin" "p455w0rd" "sample-abcdef")).
Proof.
  intros σ.
  apply (composed_file_as_template Demo.nothing_refused Demo.resolve
           Demo.pkg_dir ["tmp"; "proj1"] "/tmp/proj1/.env" None None None
           None None σ
           (["tmp"; "proj1"; ".env"],
            env_contents 27017 "admin" "p455w0rd" "sample-abcdef"));
    [reflexivity|reflexivity|reflexivity|right; left|reflexivity].
Defined.

(** [str] writes different integers differently. *)
Lemma str_inj (n m : Z) : str n = str m → n = m.
Proof.
  unfold str. intros E. apply DecimalZ.to_int_inj.
  assert (∀ z, NilZero.int_of_string (NilZero.string_of_int (Z.to_int z)) =
               Some (Z.to_int z)) as Hback.
  { intros z. apply NilZero.isi; destruct z; simpl; try discriminate;
      intros [= E']; by apply DecimalPos.Unsigned.to_uint_nonnil in E'. }
  apply (f_equal NilZero.int_of_string) in E. rewrite !Hback in E. congruence.
Qed.

Lemma decimal_int_str (n : Z) : decimal_int (str n) = Some n.
Proof.
  unfold decimal_int, str. rewrite NilZero.isi.
  - simpl. by rewrite DecimalZ.of_to.
  - destruct n; simpl; try discriminate.
    intros [= E']; by apply DecimalPos.Unsigned.to_uint_nonnil in E'.
  - destruct n; simpl; try discriminate.
    intros [= E']; by apply DecimalPos.Unsigned.to_uint_nonnil in E'.
Qed.

(** X8. The two ports can be told from the orchestration file: requests
    with different ports never give the same file. *)
Theorem ports_told_from_compose (mongodb_port http_port mongodb_port'
    http_port' : Z) :
  docker_compose_contents mongodb_port http_port =
  docker_compose_contents mongodb_port' http_port' →
  mongodb_port = mongodb_port' ∧ http_port = http_port'.
Proof.
  intros E.
  destruct (docker_compose_contents_carries mongodb_port http_port)
    as (_ & Hm & _ & Hh).
  destruct (docker_compose_contents_carries mongodb_port' http_port')
    as (_ & Hm' & _ & Hh').
  rewrite E in Hm, Hh. rewrite Hm in Hm'. rewrite Hh in Hh'.
  split; apply str_inj; congruence.
Qed.

Lemma ports_told_from_compose_witness :
  (27000 + 18)%Z = 27018%Z ∧ (9000 + 90)%Z = 9090%Z.
Proof.
  apply (ports_told_from_compose (27000 + 18) (9000 + 90) 27018 9090).
  reflexivity.
Defined.

(** X9. Port, user, password and key can be told from the environment
    file when the three strings hold no line feed: such requests never
    share a file unless they are the same. *)
Theorem request_told_from_env
    (mongodb_port mongodb_port' : Z)
    (mongodb_user mongodb_pass server_api_key : string)
    (mongodb_user' mongodb_pass' server_api_key' : string) :
  single_line mongodb_user = true → single_line mongodb_pass = true →
  single_line server_api_key = true →
  single_line mongodb_user' = true → single_line mongodb_pass' = true →
  single_line server_api_key' = true →
  env_contents mongodb_port mongodb_user mongodb_pass server_api_key =
  env_contents mongodb_port' mongodb_user' mongodb_pass' server_api_key' →
  mongodb_port = mongodb_port' ∧ mongodb_user = mongodb_user' ∧
  mongodb_pass = mongodb_pass' ∧ server_api_key = server_api_key'.
Proof.
  intros Hu Hp Hk Hu' Hp' Hk' E.
  pose proof (env_contents_assignments mongodb_port mongodb_user mongodb_pass
                server_api_key Hu Hp Hk) as H.
  pose proof (env_contents_assignments mongodb_port' mongodb_user'
                mongodb_pass' server_api_key' Hu' Hp' Hk') as H'.
  rewrite E, H' in H. injection H as ? ? ? ?. subst.
  split; [by apply str_inj|done].
Qed.

Lemma request_told_from_env_witness :
  (27000 + 18)%Z = 27018%Z ∧ "u" +:+ "1" = "u1" ∧ "p" = "p" ∧ "k" = "k".
Proof.
  apply (request_told_from_env (27000 + 18) 27018 ("u" +:+ "1") "p" "k"
           "u1" "p" "k"); reflexivity.
Defined.

(** X10. The two files of a request agree with each other: the host of the
    database in [.env] is a service of the orchestration file, the port
    waitress listens on is the container side of the port of service
    [http], and [DB_PORT] is the host side of the port of service
    [mongodb], whose container side is 27017. *)
Theorem files_agree
    (mongodb_port http_port : Z)
    (mongodb_user mongodb_pass server_api_key : string) :
  let env :=
    env_contents mongodb_port mongodb_user mongodb_pass server_api_key in
  let compose := docker_compose_contents mongodb_port http_port in
  single_line mongodb_user = true → single_line mongodb_pass = true →
  single_line server_api_key = true →
  ∃ db_host db_port waitress_port database http : string,
    env_value "DB_HOST" env = Some db_host ∧
    env_value "DB_PORT" env = Some db_port ∧
    env_value "WAITRESS_PORT" env = Some waitress_port ∧
    service_items db_host "ports" compose = [database] ∧
    cut ":" database = (db_port, Some "27017") ∧
    service_items "http" "ports" compose = [http] ∧
    cut ":" http = (str http_port, Some waitress_port).
Proof.
  intros env compose Hu Hp Hk.
  exists "mongodb", (str mongodb_port), "8080",
    (str mongodb_port +:+ String ":" "27017"),
    (str http_port +:+ String ":" "8080").
  unfold env, env_value, env_values.
  rewrite env_contents_assignments by done.
  destruct (docker_compose_contents_carries mongodb_port http_port)
    as (Hm & _ & Hh & _).
  repeat split; try done.
  - apply cut_app. by apply str_no_char.
  - apply cut_app. by apply str_no_char.
Qed.

Lemma files_agree_witness :
  let env := env_contents 27018 "u" "p" "k1" in
  let compose := docker_compose_contents 27018 9090 in
  ∃ db_host db_port waitress_port database http : string,
    env_value "DB_HOST" env = Some db_host ∧
    env_value "DB_PORT" env = Some db_port ∧
    env_value "WAITRESS_PORT" env = Some waitress_port ∧
    service_items db_host "ports" compose = [database] ∧
    cut ":" database = (db_port, Some "27017") ∧
    service_items "http" "ports" compose = [http] ∧
    cut ":" http = (str 9090, Some waitress_port).
Proof.
  apply (files_agree 27018 9090 "u" "p" "k1"); reflexivity.
Defined.

(** X11. Read through the environment file of a request, the connection
    settings of the template are the host [mongodb], the request's port,
    user and password; the port is the one published on the host, while
    the container of service [mongodb] has 27017. *)
Theorem connection_from_generated_env
    (int : string → option Z) (mongodb_port http_port : Z)
    (mongodb_user mongodb_pass server_api_key : string) :
  let environ :=
    environ_of_file
      (env_contents mongodb_port mongodb_user mongodb_pass server_api_key) in
  single_line mongodb_user = true → single_line mongodb_pass = true →
  single_line server_api_key = true →
  int (str mongodb_port) = Some mongodb_port →
  SETTINGS_connection environ int =
    Returns {| host := "mongodb"; port := mongodb_port;
               user := mongodb_user; password := mongodb_pass |} ∧
  service_items "mongodb" "ports"
    (docker_compose_contents mongodb_port http_port) =
    [str mongodb_port +:+ ":27017"].
Proof.
  intros environ Hu Hp Hk Hint.
  destruct (env_contents_carries mongodb_port mongodb_user mongodb_pass
              server_api_key Hu Hp Hk) as (_ & _ & Hport & Huser & Hpass & _).
  assert (environ "DB_HOST" = Some "mongodb") as Hhost.
  { unfold environ, environ_of_file, env_value, env_values.
    by rewrite env_contents_assignments. }
  split; [|apply docker_compose_contents_carries].
  unfold SETTINGS_connection, environ_get.
  unfold environ, environ_of_file in *.
  rewrite Hhost. simpl. rewrite Hport. simpl. rewrite Hint. simpl.
  rewrite Huser. simpl. by rewrite Hpass.
Qed.

Lemma connection_from_generated_env_witness :
  SETTINGS_connection
    (environ_of_file (env_contents 27018 "u" "p" "k1")) decimal_int =
    Returns {| host := "mongodb"; port := 27018; user := "u";
               password := "p" |} ∧
  service_items "mongodb" "ports" (docker_compose_contents 27018 9090) =
    [str 27018 +:+ ":27017"].
Proof.
  apply (connection_from_generated_env decimal_int 27018 9090 "u" "p" "k1");
    reflexivity.
Defined.

(** X13. The API key is seeded once: a start after a start changes
    nothing, whatever the environment has become. *)
Theorem seeded_once (environ environ' : string → option string)
    (client : mongo) :
  Application_init environ' (Application_init environ client) =
  Application_init environ client.
Proof.
  assert (∀ c : mongo, is_Some (find_one c "lifecycle" "setup") →
                       Application_init environ' c = c) as Hdone.
  { intros c [doc Hdoc]. unfold Application_init, try_setup. by rewrite Hdoc. }
  unfold Application_init at 2 3. unfold try_setup.
  destruct (find_one client "lifecycle" "setup") as [doc|] eqn:Efind; simpl.
  - apply Hdone. by rewrite Efind.
  - assert (is_Some (find_one
                       (insert_one client "lifecycle" "setup"
                          [("done", VBool true)]) "lifecycle" "setup")) as Hmark.
    { unfold find_one at 1. unfold collection at 1. unfold insert_one.
      rewrite lookup_insert_eq. simpl.
      by destruct (collection client "lifecycle" "setup"). }
    destruct (environ_get environ "SERVER_API_KEY") as [key|e]; simpl;
      apply Hdone; [|done].
    unfold find_one, collection, insert_one at 1.
    by rewrite lookup_insert_ne.
Qed.



(** X12. The first start on a server without setup mark, in the
    environment of a request's file, adds the request's key, and nothing
    else, to the collection the settings name for the keys. *)
Theorem first_start_seeds_request_key
    (mongodb_port : Z) (mongodb_user mongodb_pass server_api_key : string)
    (client : mongo) :
  let environ :=
    environ_of_file
      (env_contents mongodb_port mongodb_user mongodb_pass server_api_key) in
  single_line mongodb_user = true → single_line mongodb_pass = true →
  single_line server_api_key = true →
  find_one client "lifecycle" "setup" = None →
  collection (Application_init environ client) SETTINGS_auth.1 SETTINGS_auth.2 =
  collection client SETTINGS_auth.1 SETTINGS_auth.2 ++
    [[("api-key", VStr server_api_key)]].
Proof.
  intros environ Hu Hp Hk Hfind.
  destruct (env_contents_carries mongodb_port mongodb_user mongodb_pass
              server_api_key Hu Hp Hk) as (_ & _ & _ & _ & _ & Hkey).
  unfold Application_init, try_setup, environ_get.
  rewrite Hfind. simpl. unfold environ, environ_of_file. rewrite Hkey. simpl.
  unfold collection at 1. unfold insert_one at 1. rewrite lookup_insert_eq.
  simpl. unfold collection, insert_one. by rewrite lookup_insert_ne.
Qed.

Lemma first_start_seeds_request_key_witness :
  collection
    (Application_init (environ_of_file (env_contents 27018 "u" "p" "k1")) ∅)
    SETTINGS_auth.1 SETTINGS_auth.2 =
  collection ∅ SETTINGS_auth.1 SETTINGS_auth.2 ++ [[("api-key", VStr "k1")]].
Proof.
  apply (first_start_seeds_request_key 27018 "u" "p" "k1" ∅); reflexivity.
Defined.

End Further.
